(** * Workflow canvas: graph editing and state synchronisation

    A shallow embedding of [frontend/src/components/WorkflowCanvas.js]
    (the React component [WorkflowCanvas]) and of the two call sites of
    [CustomNode.js] that invoke the callbacks stored in a node's data.

    JS objects used as property bags ([node.data], [data.config], the drop
    payload) are finite maps from property names to values; arrays of nodes
    and edges are lists.  React state ([useNodesState], [useEdgesState]) and
    the [connectFromRef] ref form the session record.  A handler is a
    function of

    - the values its closure captured at the render that created it (the
      plain identifiers [nodes], [edges], [connectMode] in its body),
    - the session the state setters act on (the argument of a functional
      updater [setNodes((nds) => ...)]), and
    - the event,

    and returns the next session together with the calls it made to the
    owner's callbacks, in order. *)

From Stdlib Require Import Ascii.
From stdpp Require Import strings list pretty gmap.

Set Warnings "-register-all".

(** ** Data model *)

(** [position] is produced by [screenToFlowPosition] and only carried. *)
Record Position := { pos_x : Z; pos_y : Z }.

(** An edge as built at line 174: [{ id, source, target }]. *)
Record Edge := { edge_id : string; source : string; target : string }.

(** JS values as they occur in node data, and the closures stored there.
    A closure is represented by the function literal it comes from together
    with the variables that literal reads from its enclosing render:

    - [HydratedOnDelete edges]: lines 51-62, reads [edges];
    - [DroppedOnDelete nodes edges]: lines 137-143, reads [nodes], [edges];
    - [OnUpdateConfig edges]: lines 63-73 and 144-154 (same text), reads
      [edges].

    A node is [{ id, type, position, data }]; [type] and [data] may be
    missing. *)
Inductive Value : Type :=
  | VUndefined
  | VNull
  | VBool (b : bool)
  | VNum (z : Z)
  | VStr (s : string)
  | VObj (o : gmap string Value)
  | VFun (f : Closure)
with Closure : Type :=
  | HydratedOnDelete (c_edges : list Edge)
  | DroppedOnDelete (c_nodes : list Node) (c_edges : list Edge)
  | OnUpdateConfig (c_edges : list Edge)
with Node : Type :=
  | MkNode (id : string) (type : option string) (position : Position)
           (data : option (gmap string Value)).

Definition node_id (n : Node) : string := let 'MkNode i _ _ _ := n in i.
Definition node_type (n : Node) : option string := let 'MkNode _ t _ _ := n in t.
Definition position (n : Node) : Position := let 'MkNode _ _ p _ := n in p.
Definition data (n : Node) : option (gmap string Value) := let 'MkNode _ _ _ d := n in d.

(** The workflow document exchanged with the owner.  A field that is not an
    array is [None] ([Array.isArray(workflow.nodes) ? workflow.nodes : []]). *)
Record Workflow := { w_nodes : option (list Node); w_edges : option (list Edge) }.

Definition doc (ns : list Node) (es : list Edge) : Workflow :=
  {| w_nodes := Some ns; w_edges := Some es |}.

(** Session state: [nodes] and [edges] are the two React states,
    [connectFrom] is [connectFromRef.current] ([None] for [null]). *)
Record Session := {
  nodes : list Node;
  edges : list Edge;
  connectFrom : option string
}.

(** Calls to the owner's callbacks [onWorkflowChange] and [onNodeSelect]. *)
Inductive Output :=
  | WorkflowChange (w : Workflow)
  | NodeSelect (sel : option string).

(** Completion of a handler that may throw. *)
Inductive JSError := SyntaxError | TypeError.

Inductive Completion (A : Type) :=
  | Normal (a : A)
  | Throw (e : JSError).
Arguments Normal {A} a.
Arguments Throw {A} e.

(** ** JS operators on values *)

Module JS.

(** ToBoolean. *)
Definition truthy (v : Value) : bool :=
  match v with
  | VUndefined | VNull => false
  | VBool b => b
  | VNum z => negb (z =? 0)%Z
  | VStr s => negb (String.eqb s "")
  | VObj _ | VFun _ => true
  end.

(** [a || b]. *)
Definition or (a b : Value) : Value := if truthy a then a else b.

(** Own enumerable properties of a string: one per index. *)
Fixpoint index_props (i : nat) (s : string) : gmap string Value :=
  match s with
  | EmptyString => ∅
  | String c s' => <[pretty i := VStr (String c EmptyString)]> (index_props (S i) s')
  end.

(** What an object spread [{...v}] copies. *)
Definition spread (v : Value) : gmap string Value :=
  match v with
  | VObj o => o
  | VStr s => index_props 0 s
  | _ => ∅
  end.

(** Property read [o.k] on a property bag: [undefined] when absent. *)
Definition get (o : gmap string Value) (k : string) : Value :=
  default VUndefined (o !! k).

(** [n.data || {}] and [node.data?.k]. *)
Definition data_or_empty (n : Node) : gmap string Value := default ∅ (data n).
Definition data_get (n : Node) (k : string) : Value := get (data_or_empty n) k.

Definition is_function (v : Value) : bool :=
  match v with VFun _ => true | _ => false end.

(** Truthiness of a string-or-null such as [connectFromRef.current]. *)
Definition truthy_ref (r : option string) : bool :=
  match r with
  | Some s => negb (String.eqb s "")
  | None => false
  end.

(** [arr.every((x, i) => p(x, i))]. *)
Fixpoint every_from {A : Type} (p : A -> nat -> bool) (i : nat) (l : list A) : bool :=
  match l with
  | [] => true
  | x :: l' => p x i && every_from p (S i) l'
  end.
Definition every {A : Type} (p : A -> nat -> bool) (l : list A) : bool :=
  every_from p 0 l.

End JS.

(** A node carries a behavior handle when [data.onDelete] or
    [data.onUpdateConfig] holds a function. *)
Definition carries_handle (n : Node) : bool :=
  JS.is_function (JS.data_get n "onDelete")
  || JS.is_function (JS.data_get n "onUpdateConfig").

(** ** Serialization sanitizer (lines 82-92) *)

Definition sanitizeNode (n : Node) : Node :=
  MkNode (node_id n) (node_type n) (position n)
    (Some (<["onUpdateConfig" := VUndefined]>
             (<["onDelete" := VUndefined]> (JS.data_or_empty n)))).

Definition sanitizeNodes (ns : list Node) : list Node := map sanitizeNode ns.

(** ** Reconciler: the workflow-sync effect (lines 30-80) *)

(** [sameNodeSet] / [sameEdgeSet] (lines 36-39): equal length and, at every
    index [i], [cur[i].id === (inc[i] && inc[i].id)]. *)
Definition same_ids {A B : Type} (ida : A -> string) (idb : B -> string)
    (cur : list A) (inc : list B) : bool :=
  bool_decide (length cur = length inc)
  && JS.every (fun x i => bool_decide (Some (ida x) = idb <$> inc !! i)) cur.

(** [n.type || 'custom']. *)
Definition type_or_custom (t : option string) : string :=
  match t with
  | Some s => if String.eqb s "" then "custom" else s
  | None => "custom"
  end.

(** The body of [incomingNodes.map((n) => ...)] (lines 43-76); [c_edges] is
    the [edges] of the render in which the effect runs. *)
Definition hydrate (c_edges : list Edge) (n : Node) : Node :=
  MkNode (node_id n) (Some (type_or_custom (node_type n))) (position n)
    (Some (<["onUpdateConfig" := VFun (OnUpdateConfig c_edges)]>
             (<["onDelete" := VFun (HydratedOnDelete c_edges)]> (JS.data_or_empty n)))).

(** The effect, run with the render's [nodes] and [edges], which are the
    session's (both are in the dependency list of line 80). *)
Definition syncWorkflow (st : Session) (workflow : option Workflow)
    : Session * list Output :=
  match workflow with
  | None => (st, [])
  | Some w =>
      let incomingNodes := default [] (w_nodes w) in
      let incomingEdges := default [] (w_edges w) in
      let sameNodeSet := same_ids node_id node_id (nodes st) incomingNodes in
      let sameEdgeSet := same_ids edge_id edge_id (edges st) incomingEdges in
      if sameNodeSet && sameEdgeSet then (st, [])
      else
        ({| nodes := map (hydrate (edges st)) incomingNodes;
            edges := incomingEdges;
            connectFrom := connectFrom st |}, [])
  end.

(** ** Closures stored in node data *)

(** Edges not touching [nodeId]: [e.source !== nodeId && e.target !== nodeId]. *)
Definition not_incident (nodeId : string) (e : Edge) : Prop :=
  source e ≠ nodeId ∧ target e ≠ nodeId.

#[global] Instance not_incident_dec nodeId e : Decision (not_incident nodeId e).
Proof. unfold not_incident. apply _. Defined.

(** Lines 51-62.  [setEdges] and [setNodes] are functional updaters; the
    notification inside the [setNodes] updater passes the captured [edges]. *)
Definition hydrated_onDelete (c_edges : list Edge) (st : Session) (nodeId : string)
    : Session * list Output :=
  let filtered := filter (not_incident nodeId) (edges st) in
  let updated := filter (fun node => node_id node ≠ nodeId) (nodes st) in
  ({| nodes := updated; edges := filtered; connectFrom := connectFrom st |},
   [WorkflowChange (doc (sanitizeNodes updated) c_edges)]).

(** Lines 137-143.  The notification is computed from the captured [nodes]
    and [edges], outside the updaters. *)
Definition dropped_onDelete (c_nodes : list Node) (c_edges : list Edge)
    (st : Session) (id : string) : Session * list Output :=
  let updatedNodes := filter (fun n => node_id n ≠ id) c_nodes in
  let updatedEdges := filter (not_incident id) c_edges in
  ({| nodes := filter (fun n => node_id n ≠ id) (nodes st);
      edges := filter (not_incident id) (edges st);
      connectFrom := connectFrom st |},
   [WorkflowChange (doc updatedNodes updatedEdges)]).

(** The node literal of lines 66-68:
    [{ ...node, data: { ...(node.data || {}),
                        config: { ...(node.data?.config || {}), ...newConfig } } }]. *)
Definition merge_config (newConfig : gmap string Value) (node : Node) : Node :=
  MkNode (node_id node) (node_type node) (position node)
    (Some (<["config" :=
              VObj (newConfig ∪ JS.spread (JS.or (JS.data_get node "config") (VObj ∅)))]>
             (JS.data_or_empty node))).

(** Lines 63-73 and 144-154. *)
Definition onUpdateConfig (c_edges : list Edge) (st : Session)
    (nodeId : string) (newConfig : gmap string Value) : Session * list Output :=
  let updated :=
    map (fun node => if bool_decide (node_id node = nodeId)
                     then merge_config newConfig node else node) (nodes st) in
  ({| nodes := updated; edges := edges st; connectFrom := connectFrom st |},
   [WorkflowChange (doc (sanitizeNodes updated) c_edges)]).

(** Calling a stored closure as [f(nodeId, newConfig)]; the delete closures
    ignore their second argument. *)
Definition call (f : Closure) (st : Session) (nodeId : string)
    (newConfig : gmap string Value) : Session * list Output :=
  match f with
  | HydratedOnDelete c_edges => hydrated_onDelete c_edges st nodeId
  | DroppedOnDelete c_nodes c_edges => dropped_onDelete c_nodes c_edges st nodeId
  | OnUpdateConfig c_edges => onUpdateConfig c_edges st nodeId newConfig
  end.

(** [CustomNode.js] line 74: [data.onDelete?.(id)] on the rendered node. *)
Definition CustomNode_delete (st : Session) (n : Node) : Session * list Output :=
  match JS.data_get n "onDelete" with
  | VFun f => call f st (node_id n) ∅
  | _ => (st, [])
  end.

(** [CustomNode.js] line 124: [data.onUpdateConfig?.(id, { ... })]. *)
Definition CustomNode_updateConfig (st : Session) (n : Node)
    (newConfig : gmap string Value) : Session * list Output :=
  match JS.data_get n "onUpdateConfig" with
  | VFun f => call f st (node_id n) newConfig
  | _ => (st, [])
  end.

(** ** Drop-create (lines 110-163) *)

(** What the environment answers during one drop: the three
    [dataTransfer.getData] strings (the empty string when the format is
    absent), the completion of [JSON.parse] on the third one (a parsed array
    is the object of its indices), [screenToFlowPosition] of the pointer, and
    [Date.now()]. *)
Record DropEvent := {
  dt_reactflow : string;
  dt_componentType : string;
  dt_componentData : Completion Value;
  drop_position : Position;
  drop_now : N
}.

(** [componentData.k]; reading a property of [null] throws. *)
Definition payload_get (componentData : Value) (k : string) : Completion Value :=
  match componentData with
  | VNull | VUndefined => Throw TypeError
  | VObj o => Normal (JS.get o k)
  | _ => Normal VUndefined
  end.

(** [`${componentType}_${Date.now()}`]. *)
Definition newId (componentType : string) (now : N) : string :=
  componentType +:+ "_" +:+ pretty now.

(** The [data] literal of lines 132-156, in source order: later properties
    overwrite earlier ones, and [...componentData] overwrites [label], [type]
    and [config]. *)
Definition newNode_data (c_nodes : list Node) (c_edges : list Edge)
    (componentType : string) (componentData label defaultConfig : Value)
    : gmap string Value :=
  <["result" := if bool_decide (componentType = "output")
                then VObj {["formatted_response" := VStr ""]}
                else VUndefined]>
  (<["onUpdateConfig" := VFun (OnUpdateConfig c_edges)]>
  (<["onDelete" := VFun (DroppedOnDelete c_nodes c_edges)]>
  (JS.spread componentData ∪
   (<["config" := JS.or defaultConfig (VObj ∅)]>
   (<["type" := VStr componentType]>
   (<["label" := label]> ∅)))))).

(** [onDrop] with the [nodes] and [edges] its closure captured. *)
Definition onDrop (c_nodes : list Node) (c_edges : list Edge) (st : Session)
    (event : DropEvent) : Completion (Session * list Output) :=
  let type := dt_reactflow event in
  let componentType := dt_componentType event in
  match dt_componentData event with
  | Throw e => Throw e
  | Normal componentData =>
      if String.eqb type "" then Normal (st, [])
      else
        match payload_get componentData "label",
              payload_get componentData "defaultConfig" with
        | Normal label, Normal defaultConfig =>
            let newNode :=
              MkNode (newId componentType (drop_now event)) (Some "custom")
                (drop_position event)
                (Some (newNode_data c_nodes c_edges componentType componentData
                         label defaultConfig)) in
            Normal
              ({| nodes := nodes st ++ [newNode];
                  edges := edges st;
                  connectFrom := connectFrom st |},
               [WorkflowChange (doc (sanitizeNodes (c_nodes ++ [newNode])) c_edges)])
        | Throw e, _ | _, Throw e => Throw e
        end
  end.

(** ** Connect mode (lines 165-190) *)

(** Modelled from the spec: [addEdge] is imported from the [reactflow]
    package, which is not part of the sources; section 4.1 states that
    [addEdge(edge)] appends and that parallel edges are not deduplicated. *)
Definition addEdge (e : Edge) (eds : list Edge) : list Edge := eds ++ [e].

(** [onConnect] (lines 94-103) with the [nodes] its closure captured.  The
    argument is the connection as [addEdge] stores it, that is with the id
    the package gives it; the presentation fields [type] and [animated] are
    not part of [Edge]. *)
Definition onConnect (c_nodes : list Node) (st : Session) (params : Edge)
    : Session * list Output :=
  let updated := addEdge params (edges st) in
  ({| nodes := nodes st; edges := updated; connectFrom := connectFrom st |},
   [WorkflowChange (doc (sanitizeNodes c_nodes) updated)]).

(** [`${connectFromRef.current}-${node.id}-${Date.now()}`]. *)
Definition newEdge_id (from to : string) (now : N) : string :=
  from +:+ "-" +:+ to +:+ "-" +:+ pretty now.

(** [onNodeClick] with the [connectMode], [nodes] and [edges] its closure
    captured; [now] is [Date.now()]. *)
Definition onNodeClick (c_connectMode : bool) (c_nodes : list Node)
    (c_edges : list Edge) (st : Session) (now : N) (node : Node)
    : Session * list Output :=
  if c_connectMode then
    if negb (JS.truthy_ref (connectFrom st)) then
      ({| nodes := nodes st; edges := edges st;
          connectFrom := Some (node_id node) |}, [])
    else
      match connectFrom st with
      | Some from =>
          if bool_decide (from ≠ node_id node) then
            let newEdge :=
              {| edge_id := newEdge_id from (node_id node) now;
                 source := from; target := node_id node |} in
            ({| nodes := nodes st;
                edges := addEdge newEdge (edges st);
                connectFrom := None |},
             [WorkflowChange (doc c_nodes (c_edges ++ [newEdge]))])
          else (st, [])
      | None => (st, [])
      end
  else (st, [NodeSelect (Some (node_id node))]).

(** [onPaneClick] with the [connectMode] its closure captured. *)
Definition onPaneClick (c_connectMode : bool) (st : Session)
    : Session * list Output :=
  if c_connectMode then
    ({| nodes := nodes st; edges := edges st; connectFrom := None |}, [])
  else (st, [NodeSelect None]).

(** ** Bulk delete and edge delete (lines 192-210) *)

(** [onNodesDelete]: only [setEdges] is called; the notification passes the
    captured [edges]. *)
Definition onNodesDelete (c_nodes : list Node) (c_edges : list Edge)
    (st : Session) (deleted : list Node) : Session * list Output :=
  let deletedNodeIds := map node_id deleted in
  let updatedNodes := filter (fun node => node_id node ∉ deletedNodeIds) c_nodes in
  ({| nodes := nodes st;
      edges := filter (fun edge => (source edge ∉ deletedNodeIds)
                                   ∧ (target edge ∉ deletedNodeIds)) (edges st);
      connectFrom := connectFrom st |},
   [WorkflowChange (doc (sanitizeNodes updatedNodes) c_edges)]).

(** [onEdgesDelete]: notification only. *)
Definition onEdgesDelete (c_nodes : list Node) (c_edges : list Edge)
    (st : Session) (deleted : list Edge) : Session * list Output :=
  (st,
   [WorkflowChange
      (doc (sanitizeNodes c_nodes)
           (filter (fun edge => edge_id edge ∉ map edge_id deleted) c_edges))]).

(** [onEdgeClick]: [setEdges(updated)] with a value, not an updater. *)
Definition onEdgeClick (c_nodes : list Node) (c_edges : list Edge)
    (st : Session) (edge : Edge) : Session * list Output :=
  let updated := filter (fun e => edge_id e ≠ edge_id edge) c_edges in
  ({| nodes := nodes st; edges := updated; connectFrom := connectFrom st |},
   [WorkflowChange (doc (sanitizeNodes c_nodes) updated)]).

(** ** The mounted component

    [useCallback(f, deps)] keeps the closure of an earlier render until one
    of [deps] changes.  [nodes] and [edges] are dependencies of every handler
    that reads them, and [connectMode] is a dependency of [onNodeClick]
    (line 182), so those handlers see the current values.  [onPaneClick]
    lists only [onNodeSelect] (line 190): with a stable [onNodeSelect], as
    the owner passes, its [connectMode] is the one of the first render. *)
Record Canvas := {
  session : Session;
  connectMode : bool;
  paneClick_connectMode : bool
}.

Definition empty_session : Session :=
  {| nodes := []; edges := []; connectFrom := None |}.

(** First render with the given [connectMode] prop. *)
Definition mount (mode : bool) : Canvas :=
  {| session := empty_session; connectMode := mode; paneClick_connectMode := mode |}.

(** The owner re-renders the canvas with another [connectMode] prop. *)
Definition setConnectMode (mode : bool) (c : Canvas) : Canvas :=
  {| session := session c; connectMode := mode;
     paneClick_connectMode := paneClick_connectMode c |}.

Definition with_session (c : Canvas) (r : Session * list Output)
    : Canvas * list Output :=
  ({| session := r.1; connectMode := connectMode c;
      paneClick_connectMode := paneClick_connectMode c |}, r.2).

(** The gestures, each running the handler of the current render. *)
Definition gesture_sync (c : Canvas) (workflow : option Workflow) : Canvas * list Output :=
  with_session c (syncWorkflow (session c) workflow).

Definition gesture_nodeClick (c : Canvas) (now : N) (node : Node) : Canvas * list Output :=
  with_session c
    (onNodeClick (connectMode c) (nodes (session c)) (edges (session c))
       (session c) now node).

Definition gesture_paneClick (c : Canvas) : Canvas * list Output :=
  with_session c (onPaneClick (paneClick_connectMode c) (session c)).

Definition gesture_drop (st : Session) (event : DropEvent)
    : Completion (Session * list Output) :=
  onDrop (nodes st) (edges st) st event.

Definition gesture_connect (st : Session) (params : Edge) : Session * list Output :=
  onConnect (nodes st) st params.

Definition gesture_nodesDelete (st : Session) (deleted : list Node)
    : Session * list Output :=
  onNodesDelete (nodes st) (edges st) st deleted.

Definition gesture_edgesDelete (st : Session) (deleted : list Edge)
    : Session * list Output :=
  onEdgesDelete (nodes st) (edges st) st deleted.

Definition gesture_edgeClick (st : Session) (edge : Edge) : Session * list Output :=
  onEdgeClick (nodes st) (edges st) st edge.

(** ** Vocabulary of the statements *)

(** What [sanitizeNode] keeps of a node: its id, node type and position, and
    every data property other than the two callbacks. *)
Definition same_but_handles (n n' : Node) : Prop :=
  node_id n' = node_id n
  ∧ node_type n' = node_type n
  ∧ position n' = position n
  ∧ ∀ k : string, k ≠ "onDelete" -> k ≠ "onUpdateConfig" ->
      JS.data_get n' k = JS.data_get n k.

(** No edge of [es] has an endpoint among [ids]. *)
Definition no_edge_on (ids : list string) (es : list Edge) : Prop :=
  Forall (fun e => (source e ∉ ids) ∧ (target e ∉ ids)) es.

(** The node sequences a list of outputs hands to the owner. *)
Definition notified_nodes (outs : list Output) : list Node :=
  concat (map (fun o => match o with
                        | WorkflowChange w => default [] (w_nodes w)
                        | NodeSelect _ => []
                        end) outs).

Definition clean (outs : list Output) : Prop :=
  Forall (fun n => carries_handle n = false) (notified_nodes outs).

(** What [hydrate] makes of an incoming node: same id and position, the
    node type or ['custom'] when it is missing or empty, both callbacks
    freshly attached, and every other data property as it came. *)
Definition adopted (c_edges : list Edge) (n n' : Node) : Prop :=
  node_id n' = node_id n
  ∧ position n' = position n
  ∧ node_type n' = Some (type_or_custom (node_type n))
  ∧ JS.data_get n' "onDelete" = VFun (HydratedOnDelete c_edges)
  ∧ JS.data_get n' "onUpdateConfig" = VFun (OnUpdateConfig c_edges)
  ∧ ∀ k : string, k ≠ "onDelete" -> k ≠ "onUpdateConfig" ->
      JS.data_get n' k = JS.data_get n k.

(** The config map the code reads off a node:
    [{ ...(node.data?.config || {}) }]. *)
Definition config_of (n : Node) : gmap string Value :=
  JS.spread (JS.or (JS.data_get n "config") (VObj ∅)).

(** How [onUpdateConfig] relates a node before and after: a node with the
    given id gets [newConfig] laid over its config and keeps everything
    else; any other node is returned as it is. *)
Definition config_merged (nodeId : string) (newConfig : gmap string Value)
    (n n' : Node) : Prop :=
  if bool_decide (node_id n = nodeId) then
    config_of n' = newConfig ∪ config_of n
    ∧ node_id n' = node_id n
    ∧ node_type n' = node_type n
    ∧ position n' = position n
    ∧ ∀ k : string, k ≠ "config" -> JS.data_get n' k = JS.data_get n k
  else n' = n.

(** The edge a completed click pair creates. *)
Definition click_edge (A B : Node) (now : N) : Edge :=
  {| edge_id := newEdge_id (node_id A) (node_id B) now;
     source := node_id A; target := node_id B |}.

(** The node [onDrop] builds. *)
Definition dropped_node (c_nodes : list Node) (c_edges : list Edge)
    (ev : DropEvent) (o : gmap string Value) : Node :=
  MkNode (newId (dt_componentType ev) (drop_now ev)) (Some "custom")
    (drop_position ev)
    (Some (newNode_data c_nodes c_edges (dt_componentType ev) (VObj o)
             (JS.get o "label") (JS.get o "defaultConfig"))).

(** ** Concrete sessions and events *)

Module Sample.

Definition origin : Position := {| pos_x := 0; pos_y := 0 |}.

(** A node as found in a saved document: no callbacks in its data. *)
Definition plain (i : string) : Node :=
  MkNode i (Some "custom") origin (Some {["type" := VStr "user_query"]}).

Definition a : Node := plain "a".
Definition b : Node := plain "b".
Definition c : Node := plain "c".

Definition a_to_b : Edge := {| edge_id := "e1"; source := "a"; target := "b" |}.

Definition doc_ab : Workflow := doc [a; b] [a_to_b].
Definition doc_abc : Workflow := doc [a; b; c] [a_to_b].

(** The session after the owner supplied [doc_ab] to a fresh canvas. *)
Definition loaded_ab : Session := (syncWorkflow empty_session (Some doc_ab)).1.

(** The session after the owner then supplied [doc_abc]. *)
Definition loaded_abc : Session := (syncWorkflow loaded_ab (Some doc_abc)).1.

(** The node with the given id as it now sits in a session. *)
Definition live (st : Session) (i : string) : option Node :=
  head (filter (fun n => node_id n = i) (nodes st)).

End Sample.

Module SampleDrop.

(** The payload the palette serialises for the output component. *)
Definition output_payload : Value :=
  VObj (<["label" := VStr "Output"]>
       (<["defaultConfig" := VObj {["max_history" := VNum 50]}]> ∅)).

Definition drop_output : DropEvent :=
  {| dt_reactflow := "custom";
     dt_componentType := "output";
     dt_componentData := Normal output_payload;
     drop_position := {| pos_x := 100; pos_y := 100 |};
     drop_now := 7 |}.

(** An output node is dropped on the session loaded from [Sample.doc_ab]. *)
Definition after_drop : Session :=
  match gesture_drop Sample.loaded_ab drop_output with
  | Normal r => r.1
  | Throw _ => Sample.loaded_ab
  end.

(** Connect mode: the canvas is mounted in connect mode, loads
    [Sample.doc_ab], and node [a] is clicked. *)
Definition armed_a : Canvas :=
  (gesture_nodeClick (gesture_sync (mount true) (Some Sample.doc_ab)).1 1 Sample.a).1.

(** A drop that carries none of the three formats: every [getData] answers
    the empty string, and [JSON.parse('')] throws a [SyntaxError]. *)
Definition empty_drop : DropEvent :=
  {| dt_reactflow := "";
     dt_componentType := "";
     dt_componentData := Throw SyntaxError;
     drop_position := Sample.origin;
     drop_now := 7 |}.

End SampleDrop.

Module Scenario.

Definition drop_query : DropEvent :=
  {| dt_reactflow := "custom";
     dt_componentType := "user_query";
     dt_componentData :=
       Normal (VObj (<["label" := VStr "User Query"]>
                    (<["defaultConfig" := VObj {["max_length" := VNum 1000]}]> ∅)));
     drop_position := {| pos_x := 100; pos_y := 100 |};
     drop_now := 1 |}.

Definition drop_output : DropEvent :=
  {| dt_reactflow := "custom";
     dt_componentType := "output";
     dt_componentData := Normal SampleDrop.output_payload;
     drop_position := {| pos_x := 300; pos_y := 100 |};
     drop_now := 2 |}.

Definition wire : Edge :=
  {| edge_id := "reactflow__edge-user_query_1-output_2";
     source := "user_query_1"; target := "output_2" |}.

End Scenario.

(** ** The owner: [App], second part of [ComponentLibrary.js] *)

(** [v === s] for a string literal [s]. *)
Definition is_string (s : string) (v : Value) : bool :=
  match v with
  | VStr t => String.eqb t s
  | _ => false
  end.

(** [n?.data?.type === kind]. *)
Definition has_kind (kind : string) (n : Node) : bool :=
  is_string kind (JS.data_get n "type").

(** The validation of the Run button (lines 262-266): [true] when the
    handler goes on to the server.  When [workflow.nodes] is not an array
    [hasNodes] is false, so the handler stops whatever [.some] does. *)
Definition chat_precheck (workflow : Workflow) : bool :=
  let hasNodes :=
    match w_nodes workflow with
    | Some ns => bool_decide (0 < length ns)
    | None => false
    end in
  let hasEdges :=
    match w_edges workflow with
    | Some es => bool_decide (0 < length es)
    | None => false
    end in
  let hasUserQuery := existsb (has_kind "user_query") (default [] (w_nodes workflow)) in
  let hasOutput := existsb (has_kind "output") (default [] (w_nodes workflow)) in
  negb (negb hasNodes || negb hasEdges || negb hasUserQuery || negb hasOutput).

(** The body of [prev.nodes.map((n) => ...)] (lines 288-299): an output
    node gets [formatted_response] laid over its [result]. *)
Definition withResponse (responseText : Value) (n : Node) : Node :=
  if has_kind "output" n then
    MkNode (node_id n) (node_type n) (position n)
      (Some (<["result" :=
                VObj (<["formatted_response" := responseText]>
                        (JS.spread (JS.or (JS.data_get n "result") (VObj ∅))))]>
               (JS.data_or_empty n)))
  else n.

(** The [setWorkflow] updater of lines 284-301, with
    [responseText = res.data.response || '']; [prev.nodes.map] throws when
    [prev.nodes] is not an array. *)
Definition App_setResponse (response : Value) (prev : Workflow) : Completion Workflow :=
  let responseText := JS.or response (VStr "") in
  match w_nodes prev with
  | Some ns =>
      Normal {| w_nodes := Some (map (withResponse responseText) ns);
                w_edges := w_edges prev |}
  | None => Throw TypeError
  end.

(** How [withResponse] relates a node before and after. *)
Definition response_laid (responseText : Value) (n n' : Node) : Prop :=
  if has_kind "output" n then
    node_id n' = node_id n
    ∧ node_type n' = node_type n
    ∧ position n' = position n
    ∧ (∀ k : string, k ≠ "result" -> JS.data_get n' k = JS.data_get n k)
    ∧ ∃ res : gmap string Value,
        JS.data_get n' "result" = VObj res
        ∧ res !! "formatted_response" = Some responseText
        ∧ ∀ k : string, k ≠ "formatted_response" ->
            res !! k = JS.spread (JS.or (JS.data_get n "result") (VObj ∅)) !! k
  else n' = n.

(** ** What [CustomNode] shows *)

(** [v?.k]: [undefined] unless [v] is an object that has the property. *)
Definition opt_get (v : Value) (k : string) : Value :=
  match v with
  | VObj o => JS.get o k
  | _ => VUndefined
  end.

(** [CustomNode.js] line 89: the text in the box of an output node,
    [data.result?.formatted_response || '...'], from the node's data. *)
Definition CustomNode_outputText (d : gmap string Value) : Value :=
  JS.or (opt_get (JS.get d "result") "formatted_response")
        (VStr "Connect components into this Output to view results.").

(** [CustomNode.js] line 150: [id.split('_')[0]], the part of the id before
    its first underscore. *)
Fixpoint CustomNode_debugTag (id : string) : string :=
  match id with
  | EmptyString => EmptyString
  | String c id' => if Ascii.eqb c "_" then EmptyString
                    else String c (CustomNode_debugTag id')
  end.

(** ** Runs of the component *)

(** One run of one of the component's handlers.  Clicks on a node and the
    two buttons of [CustomNode] act on a node of the session; a drop that
    throws changes nothing and is no step. *)
Inductive gesture_step : Canvas -> Canvas -> Prop :=
  | step_sync (c : Canvas) (workflow : option Workflow) :
      gesture_step c (gesture_sync c workflow).1
  | step_nodeClick (c : Canvas) (now : N) (node : Node) :
      node ∈ nodes (session c) ->
      gesture_step c (gesture_nodeClick c now node).1
  | step_paneClick (c : Canvas) :
      gesture_step c (gesture_paneClick c).1
  | step_drop (c : Canvas) (event : DropEvent) (r : Session * list Output) :
      gesture_drop (session c) event = Normal r ->
      gesture_step c (with_session c r).1
  | step_connect (c : Canvas) (params : Edge) :
      gesture_step c (with_session c (gesture_connect (session c) params)).1
  | step_nodesDelete (c : Canvas) (deleted : list Node) :
      gesture_step c (with_session c (gesture_nodesDelete (session c) deleted)).1
  | step_edgesDelete (c : Canvas) (deleted : list Edge) :
      gesture_step c (with_session c (gesture_edgesDelete (session c) deleted)).1
  | step_edgeClick (c : Canvas) (edge : Edge) :
      gesture_step c (with_session c (gesture_edgeClick (session c) edge)).1
  | step_delete (c : Canvas) (node : Node) :
      node ∈ nodes (session c) ->
      gesture_step c (with_session c (CustomNode_delete (session c) node)).1
  | step_updateConfig (c : Canvas) (node : Node) (newConfig : gmap string Value) :
      node ∈ nodes (session c) ->
      gesture_step c
        (with_session c (CustomNode_updateConfig (session c) node newConfig)).1.

(** A step is a handler run or a re-render with another [connectMode]. *)
Inductive step : Canvas -> Canvas -> Prop :=
  | step_gesture (c c' : Canvas) : gesture_step c c' -> step c c'
  | step_mode (c : Canvas) (mode : bool) : step c (setConnectMode mode c).

(** The states the canvas can be in after being mounted with [mode]. *)
Definition reachable (mode : bool) (c : Canvas) : Prop := rtc step (mount mode) c.

(** The same without any change of [connectMode]. *)
Definition reachable_fixed_mode (mode : bool) (c : Canvas) : Prop :=
  rtc gesture_step (mount mode) c.

(** [data.onDelete] holds one of the two delete closures and
    [data.onUpdateConfig] the config closure. *)
Definition is_delete_closure (v : Value) : bool :=
  match v with
  | VFun (HydratedOnDelete _) | VFun (DroppedOnDelete _ _) => true
  | _ => false
  end.

Definition is_config_closure (v : Value) : bool :=
  match v with
  | VFun (OnUpdateConfig _) => true
  | _ => false
  end.

Definition wired (n : Node) : bool :=
  is_delete_closure (JS.data_get n "onDelete")
  && is_config_closure (JS.data_get n "onUpdateConfig").

(** The node has a non-empty [type]. *)
Definition typed (n : Node) : bool :=
  match node_type n with
  | Some t => negb (String.eqb t "")
  | None => false
  end.

(** The node has both callbacks in place and a non-empty type. *)
Definition healthy (n : Node) : Prop := wired n = true ∧ typed n = true.

(** The character [c] occurs in [s]. *)
Fixpoint occurs (c : Ascii.ascii) (s : string) : bool :=
  match s with
  | EmptyString => false
  | String d s' => Ascii.eqb c d || occurs c s'
  end.

(** * Properties *)

(** Reads of a data property come down to lookups in the property bag. *)
Ltac read_props :=
  unfold JS.data_get, JS.get, JS.data_or_empty; simpl;
  repeat (rewrite lookup_insert_eq || rewrite lookup_insert_ne by done).

(** ** Sanitizer *)

Lemma data_get_sanitizeNode (n : Node) (k : string) :
  k ≠ "onDelete" -> k ≠ "onUpdateConfig" ->
  JS.data_get (sanitizeNode n) k = JS.data_get n k.
Proof.
  intros Hd Hu. unfold sanitizeNode. by read_props.
Qed.

Lemma sanitizeNode_idempotent (n : Node) :
  sanitizeNode (sanitizeNode n) = sanitizeNode n.
Proof.
  unfold sanitizeNode, JS.data_or_empty. simpl. do 2 f_equal.
  rewrite (insert_insert_ne _ "onDelete" "onUpdateConfig") by done.
  by rewrite !insert_insert_eq.
Qed.

Lemma carries_handle_sanitizeNode (n : Node) :
  carries_handle (sanitizeNode n) = false.
Proof.
  unfold carries_handle, sanitizeNode. by read_props.
Qed.

Lemma sanitizeNodes_clean (ns : list Node) :
  Forall (fun n => carries_handle n = false) (sanitizeNodes ns).
Proof.
  unfold sanitizeNodes. induction ns as [|n ns IH]; simpl; constructor; auto.
  apply carries_handle_sanitizeNode.
Qed.

Lemma sanitizeNode_same_but_handles (n : Node) :
  same_but_handles n (sanitizeNode n).
Proof.
  repeat split; try done. intros k Hd Hu. by apply data_get_sanitizeNode.
Qed.

(** C5: [sanitizeNodes] is idempotent, its result carries no behavior
    handle, and it keeps the length and order of the sequence and, node by
    node, the id, the node type, the position and every data property other
    than the two callbacks; in particular the component kind [data.type],
    [label], [config] and [result]. *)
Theorem sanitizeNodes_idempotent_clean_preserving (ns : list Node) :
  sanitizeNodes (sanitizeNodes ns) = sanitizeNodes ns
  ∧ Forall (fun n => carries_handle n = false) (sanitizeNodes ns)
  ∧ length (sanitizeNodes ns) = length ns
  ∧ Forall2 same_but_handles ns (sanitizeNodes ns)
  ∧ Forall2 (fun n n' =>
       JS.data_get n' "type" = JS.data_get n "type"
       ∧ JS.data_get n' "label" = JS.data_get n "label"
       ∧ JS.data_get n' "config" = JS.data_get n "config"
       ∧ JS.data_get n' "result" = JS.data_get n "result") ns (sanitizeNodes ns).
Proof.
  split; [|split; [|split; [|split]]].
  - unfold sanitizeNodes. rewrite map_map. apply map_ext.
    intros n. apply sanitizeNode_idempotent.
  - apply sanitizeNodes_clean.
  - unfold sanitizeNodes. apply length_map.
  - unfold sanitizeNodes. induction ns as [|n ns IH]; simpl; constructor; auto.
    apply sanitizeNode_same_but_handles.
  - unfold sanitizeNodes. induction ns as [|n ns IH]; simpl; constructor; auto.
    repeat split; by apply data_get_sanitizeNode.
Qed.

(** ** Cascade on node deletion *)

Lemma Forall_filter_holds {A : Type} (P : A -> Prop) `{!∀ x, Decision (P x)}
    (l : list A) : Forall P (filter P l).
Proof. apply Forall_forall. intros x Hx. by apply list_elem_of_filter in Hx as [? _]. Qed.

Lemma no_edge_on_filter_single (nodeId : string) (es : list Edge) :
  no_edge_on [nodeId] (filter (not_incident nodeId) es).
Proof.
  unfold no_edge_on. eapply Forall_impl; [apply Forall_filter_holds|].
  intros e [Hs Ht]. by rewrite !list_elem_of_singleton.
Qed.

(** C1: each of the three delete-node handlers (the delete handle attached
    on reconciliation, the delete handle attached on drop, and bulk delete)
    leaves, in the session it returns, no edge whose source or target is a
    deleted node; the two delete handles drop the node in that same step. *)
Theorem delete_node_removes_incident_edges (st : Session) :
  (∀ (c_edges : list Edge) (n : string),
      let st' := (hydrated_onDelete c_edges st n).1 in
      no_edge_on [n] (edges st') ∧ n ∉ map node_id (nodes st'))
  ∧ (∀ (c_nodes : list Node) (c_edges : list Edge) (n : string),
      let st' := (dropped_onDelete c_nodes c_edges st n).1 in
      no_edge_on [n] (edges st') ∧ n ∉ map node_id (nodes st'))
  ∧ (∀ deleted : list Node,
      no_edge_on (map node_id deleted) (edges (gesture_nodesDelete st deleted).1)).
Proof.
  assert (Hnodes : ∀ n, n ∉ map node_id (filter (fun m => node_id m ≠ n) (nodes st))).
  { intros n Hin. apply list_elem_of_In, in_map_iff in Hin as (m & Hid & Hm).
    apply list_elem_of_In, list_elem_of_filter in Hm as [Hne _]. by apply Hne. }
  split; [|split].
  - intros c_edges n. simpl. split; [apply no_edge_on_filter_single | apply Hnodes].
  - intros c_nodes c_edges n. simpl. split; [apply no_edge_on_filter_single | apply Hnodes].
  - intros deleted. simpl. apply Forall_filter_holds.
Qed.

(** ** Owner notifications of the delete handlers *)

(** [onNodesDelete] always passes the edges it captured, unfiltered. *)
Lemma onNodesDelete_notifies_captured_edges (c_nodes : list Node)
    (c_edges : list Edge) (st : Session) (deleted : list Node) :
  ∃ ns, (onNodesDelete c_nodes c_edges st deleted).2 = [WorkflowChange (doc ns c_edges)].
Proof. eexists. reflexivity. Qed.

(** The reconciled delete handle always passes the edges it captured. *)
Lemma hydrated_onDelete_notifies_captured_edges (c_edges : list Edge)
    (st : Session) (n : string) :
  ∃ ns, (hydrated_onDelete c_edges st n).2 = [WorkflowChange (doc ns c_edges)].
Proof. eexists. reflexivity. Qed.

(** C2 (fails on the code): in the session loaded from nodes [a], [b] and the
    edge [a -> b], bulk deletion of [a] empties the session's edge sequence
    but notifies the owner with the edge [a -> b] still present; the delete
    handle attached on reconciliation does the same after a second
    reconciliation, passing the edges of the render it was created in. *)
Theorem delete_notifications_keep_incident_edges :
  (edges (gesture_nodesDelete Sample.loaded_ab [Sample.a]).1 = []
   ∧ (gesture_nodesDelete Sample.loaded_ab [Sample.a]).2
     = [WorkflowChange (doc (sanitizeNodes [Sample.b]) [Sample.a_to_b])]
   ∧ ¬ no_edge_on ["a"] [Sample.a_to_b])
  ∧ (∃ live_a : Node,
       Sample.live Sample.loaded_abc "a" = Some live_a
       ∧ edges (CustomNode_delete Sample.loaded_abc live_a).1 = []
       ∧ ∃ ns, (CustomNode_delete Sample.loaded_abc live_a).2
               = [WorkflowChange (doc ns [Sample.a_to_b])]).
Proof.
  split.
  - split; [by vm_compute|]. split; [by vm_compute|].
    intros H. apply Forall_cons in H as [[Hs _] _].
    apply Hs. by apply list_elem_of_singleton.
  - eexists. split; [by vm_compute|]. split; [by vm_compute|].
    eexists. by vm_compute.
Qed.

(** What follows from the stale edges once the owner hands the notified
    document back: the reconciler sees other edge ids than the session's and
    adopts the document, so the edge from [a] is in the session again while
    node [a] is gone. *)
Lemma stale_edges_return_on_echo :
  ∃ (live_a : Node) (echo : Workflow),
    Sample.live Sample.loaded_abc "a" = Some live_a
    ∧ (CustomNode_delete Sample.loaded_abc live_a).2 = [WorkflowChange echo]
    ∧ let st' := (syncWorkflow (CustomNode_delete Sample.loaded_abc live_a).1
                    (Some echo)).1 in
      map node_id (nodes st') = ["b"; "c"] ∧ edges st' = [Sample.a_to_b].
Proof.
  eexists. eexists. split; [by vm_compute|]. split; [by vm_compute|].
  split; by vm_compute.
Qed.

(** The scenario of the specification, section 8: two drops, a drag
    connection, then the Delete button of the first node.  The session ends
    with the output node alone and no edge; the notification of that delete
    is computed from the [nodes] and [edges] of the render in which the first
    node was dropped, which were empty. *)
Lemma scenario_drop_connect_delete :
  ∃ (s1 s2 : Session) (o1 o2 : list Output) (query : Node),
    gesture_drop empty_session Scenario.drop_query = Normal (s1, o1)
    ∧ gesture_drop s1 Scenario.drop_output = Normal (s2, o2)
    ∧ map node_id (nodes s2) = ["user_query_1"; "output_2"]
    ∧ (fun n => JS.data_get n "result") <$> nodes s2 !! 1
      = Some (VObj {["formatted_response" := VStr ""]})
    ∧ Sample.live s2 "user_query_1" = Some query
    ∧ let s3 := (gesture_connect s2 Scenario.wire).1 in
      let r := CustomNode_delete s3 query in
      edges s3 = [Scenario.wire]
      ∧ map node_id (nodes r.1) = ["output_2"]
      ∧ edges r.1 = []
      ∧ r.2 = [WorkflowChange (doc [] [])].
Proof.
  do 5 eexists. split; [by vm_compute|]. split; [by vm_compute|].
  repeat split; by vm_compute.
Qed.

(** ** Sanitization of the notified node sequence *)

Lemma clean_sanitized (ns : list Node) (es : list Edge) :
  clean [WorkflowChange (doc (sanitizeNodes ns) es)].
Proof. unfold clean, notified_nodes. simpl. rewrite app_nil_r. apply sanitizeNodes_clean. Qed.

(** The handlers that call [sanitizeNodes] on what they notify. *)
Lemma sanitizing_handlers (c_nodes : list Node) (c_edges : list Edge) (st : Session) :
  (∀ n, clean (hydrated_onDelete c_edges st n).2)
  ∧ (∀ n cfg, clean (onUpdateConfig c_edges st n cfg).2)
  ∧ (∀ params, clean (onConnect c_nodes st params).2)
  ∧ (∀ ev r, onDrop c_nodes c_edges st ev = Normal r -> clean r.2)
  ∧ (∀ deleted, clean (onNodesDelete c_nodes c_edges st deleted).2)
  ∧ (∀ deleted, clean (onEdgesDelete c_nodes c_edges st deleted).2)
  ∧ (∀ e, clean (onEdgeClick c_nodes c_edges st e).2).
Proof.
  repeat split; try (intros; apply clean_sanitized).
  intros ev r Hr. unfold onDrop in Hr.
  destruct (dt_componentData ev) as [v|]; [|done].
  destruct (String.eqb _ _); [injection Hr as <-; constructor|].
  destruct (payload_get v "label"); [|done].
  destruct (payload_get v "defaultConfig"); [|done].
  injection Hr as <-. apply clean_sanitized.
Qed.

(** The connect-mode click passes the captured [nodes] as they are. *)
Lemma onNodeClick_notifies_captured_nodes (c_nodes : list Node)
    (c_edges : list Edge) (st : Session) (now : N) (node : Node) (from : string) :
  connectFrom st = Some from -> from ≠ "" -> from ≠ node_id node ->
  notified_nodes (onNodeClick true c_nodes c_edges st now node).2 = c_nodes.
Proof.
  intros Hfrom Hne Hdiff. unfold onNodeClick. rewrite Hfrom. simpl.
  destruct (String.eqb_spec from ""); [done|]. simpl.
  rewrite bool_decide_true by done. unfold notified_nodes. simpl. apply app_nil_r.
Qed.

(** C3 (fails on the code): two notifications whose node sequence still
    carries behavior handles.  In connect mode, clicking [a] then [b] on a
    reconciled graph notifies the owner with the session's nodes as they
    are; and the delete handle of a freshly dropped node notifies with the
    captured nodes, filtered but not sanitized. *)
Theorem notifications_leak_handles :
  ¬ clean (gesture_nodeClick SampleDrop.armed_a 2 Sample.b).2
  ∧ (∃ dropped : Node,
       Sample.live SampleDrop.after_drop "output_7" = Some dropped
       ∧ ¬ clean (CustomNode_delete SampleDrop.after_drop dropped).2).
Proof.
  split.
  - intros H. apply Forall_cons in H as [H _]. by vm_compute in H.
  - eexists. split; [by vm_compute|].
    intros H. apply Forall_cons in H as [H _]. by vm_compute in H.
Qed.

(** ** Reconciler *)

Section SameIds.

Context {A B : Type} (ida : A -> string) (idb : B -> string).

Lemma every_from_shift (f : A -> option B -> bool) (y : B) (inc : list B)
    (k : nat) (l : list A) :
  JS.every_from (fun x i => f x ((y :: inc) !! i)) (S k) l
  = JS.every_from (fun x i => f x (inc !! i)) k l.
Proof.
  revert k. induction l as [|x l IH]; intros k; simpl; [done|].
  by rewrite IH.
Qed.

(** The positional check of lines 36-39 holds exactly when the two id
    sequences are equal. *)
Lemma same_ids_spec (cur : list A) (inc : list B) :
  same_ids ida idb cur inc = true <-> map ida cur = map idb inc.
Proof.
  unfold same_ids, JS.every. revert inc.
  induction cur as [|x cur IH]; intros [|y inc]; simpl; try done.
  pose proof (every_from_shift
    (fun x o => bool_decide (Some (ida x) = idb <$> o)) y inc 0 cur) as Hshift.
  cbv beta in Hshift. rewrite Hshift. clear Hshift.
  specialize (IH inc).
  rewrite !andb_true_iff, !bool_decide_eq_true in *.
  split.
  - intros (Hlen & Hhd & Hev). injection Hlen as Hlen. injection Hhd as Hhd.
    f_equal; [done|]. apply IH. by split.
  - intros Heq. injection Heq as Hhd Htl. apply IH in Htl as [Hlen Hev].
    repeat split; [by f_equal | by f_equal | done].
Qed.

Lemma same_ids_false (cur : list A) (inc : list B) :
  same_ids ida idb cur inc = false <-> map ida cur ≠ map idb inc.
Proof.
  rewrite <- same_ids_spec. destruct (same_ids ida idb cur inc); split; done.
Qed.

End SameIds.

(** C4: the reconciler returns the session unchanged and notifies nobody
    when the incoming document is absent, or when its node ids and its edge
    ids are, position by position, those of the session. *)
Theorem reconciler_noop (st : Session) (workflow : option Workflow) :
  workflow = None
  ∨ (∃ w, workflow = Some w
          ∧ map node_id (nodes st) = map node_id (default [] (w_nodes w))
          ∧ map edge_id (edges st) = map edge_id (default [] (w_edges w))) ->
  syncWorkflow st workflow = (st, []).
Proof.
  intros [-> | (w & -> & Hn & He)]; [done|].
  unfold syncWorkflow.
  apply (same_ids_spec node_id node_id) in Hn.
  apply (same_ids_spec edge_id edge_id) in He.
  by rewrite Hn, He.
Qed.

Lemma reconciler_noop_witness :
  (Some Sample.doc_ab = None
   ∨ (∃ w, Some Sample.doc_ab = Some w
           ∧ map node_id (nodes Sample.loaded_ab) = map node_id (default [] (w_nodes w))
           ∧ map edge_id (edges Sample.loaded_ab) = map edge_id (default [] (w_edges w))))
  ∧ syncWorkflow Sample.loaded_ab (Some Sample.doc_ab) = (Sample.loaded_ab, []).
Proof.
  assert (H : Some Sample.doc_ab = None
   ∨ (∃ w, Some Sample.doc_ab = Some w
           ∧ map node_id (nodes Sample.loaded_ab) = map node_id (default [] (w_nodes w))
           ∧ map edge_id (edges Sample.loaded_ab) = map edge_id (default [] (w_edges w)))).
  { right. exists Sample.doc_ab. repeat split; vm_compute; reflexivity. }
  split; [exact H | exact (reconciler_noop Sample.loaded_ab (Some Sample.doc_ab) H)].
Defined.

Lemma Forall2_map_self {A B : Type} (P : A -> B -> Prop) (f : A -> B) (l : list A) :
  (∀ x, P x (f x)) -> Forall2 P l (map f l).
Proof. intros HP. induction l as [|x l IH]; simpl; constructor; auto. Qed.

Lemma hydrate_adopted (c_edges : list Edge) (n : Node) :
  adopted c_edges n (hydrate c_edges n).
Proof.
  unfold adopted, hydrate. repeat split.
  - by read_props.
  - by read_props.
  - intros k Hd Hu. by read_props.
Qed.

Lemma type_or_custom_present (t : string) :
  t ≠ "" -> type_or_custom (Some t) = t.
Proof. intros Ht. simpl. by destruct (String.eqb_spec t ""). Qed.

(** The attached delete handle, called the way [CustomNode] calls it, acts
    on the node's own id. *)
Lemma hydrated_delete_acts_on_own_id (c_edges : list Edge) (n : Node) (st : Session) :
  CustomNode_delete st (hydrate c_edges n)
  = hydrated_onDelete c_edges st (node_id n).
Proof.
  unfold CustomNode_delete.
  by destruct (hydrate_adopted c_edges n) as (_ & _ & _ & -> & _).
Qed.

(** The attached config handle, called the way [CustomNode] calls it, acts
    on the node's own id. *)
Lemma hydrated_update_acts_on_own_id (c_edges : list Edge) (n : Node) (st : Session)
    (newConfig : gmap string Value) :
  CustomNode_updateConfig st (hydrate c_edges n) newConfig
  = onUpdateConfig c_edges st (node_id n) newConfig.
Proof.
  unfold CustomNode_updateConfig.
  by destruct (hydrate_adopted c_edges n) as (_ & _ & _ & _ & -> & _).
Qed.

(** C6 as stated fails, in two places.  An incoming node whose [type] is
    the empty string is adopted with type ['custom'], so not every incoming
    field other than the handles is kept as it came.  And the attached
    handles are not bound to the node's id: in the session reconciled from
    nodes [a] and [b], the delete handle stored in node [a], called with
    the id of [b], removes [b] and keeps [a]. *)
Lemma reconciler_not_verbatim_nor_bound :
  (let blank := MkNode "a" (Some "") Sample.origin None in
   map node_id (nodes empty_session) ≠ map node_id [blank]
   ∧ ¬ Forall2 same_but_handles [blank]
         (nodes (syncWorkflow empty_session (Some (doc [blank] []))).1))
  ∧ (map node_id (nodes empty_session)
     ≠ map node_id (default [] (w_nodes Sample.doc_ab))
     ∧ ∃ (live_a : Node) (f : Closure),
         Sample.live (syncWorkflow empty_session (Some Sample.doc_ab)).1 "a"
         = Some live_a
         ∧ JS.data_get live_a "onDelete" = VFun f
         ∧ map node_id
             (nodes (call f (syncWorkflow empty_session (Some Sample.doc_ab)).1
                       "b" ∅).1)
           = ["a"]).
Proof.
  split.
  - split; [done|]. intros H.
    apply Forall2_cons_1 in H as [(_ & Htype & _) _]. by vm_compute in Htype.
  - split; [done|]. eexists. eexists.
    split; [by vm_compute|]. split; by vm_compute.
Qed.

(** C6, amended: when the incoming id sequences differ from the session's,
    the session's nodes become the incoming nodes, in order.  Each keeps its
    id, its position and every data property other than the two handles;
    its node type is kept when present and non-empty, and is ['custom']
    when it is missing or the empty string.  Both handles are freshly
    attached; they are not bound to the node's id but act on the id they
    are called with, and [CustomNode] calls them with the node's own id.
    The edges become the incoming edges; the connect cursor is kept and
    nothing is notified. *)
Theorem reconciler_replaces (st : Session) (w : Workflow) :
  map node_id (nodes st) ≠ map node_id (default [] (w_nodes w))
  ∨ map edge_id (edges st) ≠ map edge_id (default [] (w_edges w)) ->
  let r := syncWorkflow st (Some w) in
  edges r.1 = default [] (w_edges w)
  ∧ Forall2 (adopted (edges st)) (default [] (w_nodes w)) (nodes r.1)
  ∧ Forall2 (fun n n' => ∀ t, node_type n = Some t -> t ≠ "" -> node_type n' = Some t)
      (default [] (w_nodes w)) (nodes r.1)
  ∧ Forall2 (fun n n' => node_type n = None ∨ node_type n = Some "" ->
                         node_type n' = Some "custom")
      (default [] (w_nodes w)) (nodes r.1)
  ∧ Forall2 (fun n n' => ∀ s, CustomNode_delete s n'
                              = hydrated_onDelete (edges st) s (node_id n))
      (default [] (w_nodes w)) (nodes r.1)
  ∧ Forall2 (fun n n' => ∀ s newConfig,
               CustomNode_updateConfig s n' newConfig
               = onUpdateConfig (edges st) s (node_id n) newConfig)
      (default [] (w_nodes w)) (nodes r.1)
  ∧ Forall2 (fun n n' =>
       ∃ f g : Closure,
         JS.data_get n' "onDelete" = VFun f
         ∧ JS.data_get n' "onUpdateConfig" = VFun g
         ∧ ∀ (s : Session) (nodeId : string) (newConfig : gmap string Value),
             call f s nodeId newConfig = hydrated_onDelete (edges st) s nodeId
             ∧ call g s nodeId newConfig
               = onUpdateConfig (edges st) s nodeId newConfig)
      (default [] (w_nodes w)) (nodes r.1)
  ∧ connectFrom r.1 = connectFrom st
  ∧ r.2 = [].
Proof.
  intros Hdiff. unfold syncWorkflow.
  assert (Hgate : same_ids node_id node_id (nodes st) (default [] (w_nodes w))
                  && same_ids edge_id edge_id (edges st) (default [] (w_edges w))
                  = false).
  { apply andb_false_iff. destruct Hdiff as [H | H]; [left | right];
      by apply same_ids_false. }
  cbv zeta. rewrite Hgate. cbn [fst snd nodes edges connectFrom].
  split; [done|]. split; [|split; [|split; [|split; [|split; [|split]]]]].
  - apply Forall2_map_self, hydrate_adopted.
  - apply Forall2_map_self. intros n t Ht Hne. simpl. rewrite Ht.
    f_equal. by apply type_or_custom_present.
  - apply Forall2_map_self. intros n [Ht | Ht]; simpl; by rewrite Ht.
  - apply Forall2_map_self. intros n s. apply hydrated_delete_acts_on_own_id.
  - apply Forall2_map_self. intros n s newConfig.
    apply hydrated_update_acts_on_own_id.
  - apply Forall2_map_self. intros n.
    destruct (hydrate_adopted (edges st) n) as (_ & _ & _ & Hdel & Hupd & _).
    exists (HydratedOnDelete (edges st)), (OnUpdateConfig (edges st)).
    by repeat split.
  - done.
Qed.

Lemma reconciler_replaces_witness :
  (map node_id (nodes empty_session) ≠ map node_id (default [] (w_nodes Sample.doc_ab))
   ∨ map edge_id (edges empty_session) ≠ map edge_id (default [] (w_edges Sample.doc_ab)))
  ∧ edges (syncWorkflow empty_session (Some Sample.doc_ab)).1 = [Sample.a_to_b].
Proof.
  assert (H : map node_id (nodes empty_session)
              ≠ map node_id (default [] (w_nodes Sample.doc_ab))
            ∨ map edge_id (edges empty_session)
              ≠ map edge_id (default [] (w_edges Sample.doc_ab))).
  { left. simpl. discriminate. }
  split; [exact H|].
  exact (proj1 (reconciler_replaces empty_session Sample.doc_ab H)).
Defined.

(** ** Config update *)

Lemma config_of_merge_config (newConfig : gmap string Value) (n : Node) :
  config_of (merge_config newConfig n) = newConfig ∪ config_of n.
Proof.
  unfold config_of at 1. unfold merge_config. by read_props.
Qed.

Lemma merge_config_merged (newConfig : gmap string Value) (n : Node) :
  config_merged (node_id n) newConfig n (merge_config newConfig n).
Proof.
  unfold config_merged. rewrite bool_decide_true by done.
  split; [apply config_of_merge_config|]. repeat split.
  intros k Hk. unfold merge_config. by read_props.
Qed.

Lemma onUpdateConfig_nodes (c_edges : list Edge) (st : Session) (nodeId : string)
    (newConfig : gmap string Value) :
  Forall2 (config_merged nodeId newConfig) (nodes st)
    (nodes (onUpdateConfig c_edges st nodeId newConfig).1).
Proof.
  simpl. apply Forall2_map_self. intros n.
  destruct (decide (node_id n = nodeId)) as [<- | Hne].
  - rewrite bool_decide_true by done. apply merge_config_merged.
  - unfold config_merged. by rewrite !bool_decide_false.
Qed.

Lemma onUpdateConfig_absent (c_edges : list Edge) (st : Session) (nodeId : string)
    (newConfig : gmap string Value) :
  nodeId ∉ map node_id (nodes st) ->
  (onUpdateConfig c_edges st nodeId newConfig).1 = st.
Proof.
  intros Habs. destruct st as [ns es cf]. simpl in *. f_equal.
  induction ns as [|n ns IH]; simpl; [done|].
  apply not_elem_of_cons in Habs as [Hne Habs].
  rewrite bool_decide_false by done. f_equal. by apply IH.
Qed.

(** C7 as stated fails: an edit for an id that no node has leaves the
    session as it is but is no no-op, for the handler still calls
    [onWorkflowChange], with the edges its closure captured; handed back by
    the owner, that document empties the session's edges. *)
Lemma updateNodeConfig_absent_still_notifies :
  let st := Sample.loaded_ab in
  let r := onUpdateConfig [] st "zz" {["k" := VNum 1]} in
  map node_id (nodes st) = ["a"; "b"]
  ∧ r.1 = st
  ∧ r.2 = [WorkflowChange (doc (sanitizeNodes (nodes st)) [])]
  ∧ r.2 ≠ []
  ∧ edges st = [Sample.a_to_b]
  ∧ edges (syncWorkflow r.1 (Some (doc (sanitizeNodes (nodes st)) []))).1 = [].
Proof. repeat split; by vm_compute. Qed.

(** C7, amended: [onUpdateConfig] lays the keys of [newConfig] over the
    existing config of every node with the given id (a colliding key takes
    the new value, any other key keeps its old one) and leaves the rest of
    the node and all other nodes alone; two updates in a row, with distinct
    keys [a] and [b], leave both keys in the config.  When no node has the
    id the session is unchanged, but the owner is notified all the same:
    in every case the handler passes the sanitized nodes of the session it
    leaves and the edges its closure captured. *)
Theorem updateNodeConfig_merges (c_edges : list Edge) (st : Session)
    (nodeId : string) (newConfig : gmap string Value) :
  let st1 := (onUpdateConfig c_edges st nodeId newConfig).1 in
  Forall2 (config_merged nodeId newConfig) (nodes st) (nodes st1)
  ∧ Forall2 (fun n n' => node_id n = nodeId ->
       ∀ k : string,
         config_of n' !! k
         = match newConfig !! k with
           | Some v => Some v
           | None => config_of n !! k
           end) (nodes st) (nodes st1)
  ∧ (∀ (c_edges' : list Edge) (a b : string) (va vb : Value),
       a ≠ b ->
       let st2 := (onUpdateConfig c_edges' (onUpdateConfig c_edges st nodeId {[a := va]}).1
                     nodeId {[b := vb]}).1 in
       Forall2 (fun n n'' => node_id n = nodeId ->
          config_of n'' !! a = Some va
          ∧ config_of n'' !! b = Some vb
          ∧ ∀ k : string, k ≠ a -> k ≠ b -> config_of n'' !! k = config_of n !! k)
         (nodes st) (nodes st2))
  ∧ ((nodeId ∉ map node_id (nodes st)) ->
     st1 = st
     ∧ (onUpdateConfig c_edges st nodeId newConfig).2
       = [WorkflowChange (doc (sanitizeNodes (nodes st)) c_edges)])
  ∧ (onUpdateConfig c_edges st nodeId newConfig).2
    = [WorkflowChange (doc (sanitizeNodes (nodes st1)) c_edges)].
Proof.
  split; [apply onUpdateConfig_nodes|]. split; [|split; [|split]]; [| | |done].
  - simpl. apply Forall2_map_self. intros n Hid k.
    rewrite bool_decide_true by done. rewrite config_of_merge_config.
    rewrite lookup_union. by destruct (newConfig !! k), (config_of n !! k).
  - intros c_edges' a b va vb Hab. simpl. rewrite map_map.
    apply Forall2_map_self. intros n Hid.
    rewrite (bool_decide_true (node_id n = nodeId)) by done. simpl.
    rewrite bool_decide_true by done. rewrite !config_of_merge_config.
    split; [|split].
    + rewrite lookup_union_r by by rewrite lookup_singleton_ne.
      apply lookup_union_Some_l. by rewrite lookup_singleton_eq.
    + apply lookup_union_Some_l. by rewrite lookup_singleton_eq.
    + intros k Ha Hb. rewrite !lookup_union_r; try done;
        by rewrite lookup_singleton_ne.
  - intros Habs.
    pose proof (onUpdateConfig_absent c_edges st nodeId newConfig Habs) as Hst.
    split; [exact Hst|].
    change (onUpdateConfig c_edges st nodeId newConfig).2
      with [WorkflowChange
              (doc (sanitizeNodes
                      (nodes (onUpdateConfig c_edges st nodeId newConfig).1))
                 c_edges)].
    by rewrite Hst.
Qed.

Lemma updateNodeConfig_merges_witness :
  let st2 :=
    (onUpdateConfig [] (onUpdateConfig [] Sample.loaded_ab "a" {["a" := VNum 1]}).1
       "a" {["b" := VNum 2]}).1 in
  ("a" ≠ "b"
   ∧ Forall2 (fun n n'' => node_id n = "a" ->
        config_of n'' !! "a" = Some (VNum 1)
        ∧ config_of n'' !! "b" = Some (VNum 2)
        ∧ ∀ k : string, k ≠ "a" -> k ≠ "b" -> config_of n'' !! k = config_of n !! k)
       (nodes Sample.loaded_ab) (nodes st2))
  ∧ (("zz" ∉ map node_id (nodes Sample.loaded_ab))
     ∧ (onUpdateConfig [] Sample.loaded_ab "zz" ∅).1 = Sample.loaded_ab
     ∧ (onUpdateConfig [] Sample.loaded_ab "zz" ∅).2
       = [WorkflowChange (doc (sanitizeNodes (nodes Sample.loaded_ab)) [])]).
Proof.
  cbv zeta.
  assert (H : "a" ≠ "b") by discriminate.
  assert (Habs : "zz" ∉ map node_id (nodes Sample.loaded_ab)).
  { intros Hin. apply list_elem_of_In in Hin. vm_compute in Hin.
    destruct Hin as [Hin | [Hin | Hin]];
      [discriminate Hin | discriminate Hin | exact Hin]. }
  split.
  - split; [exact H|].
    exact (proj1 (proj2 (proj2
      (updateNodeConfig_merges [] Sample.loaded_ab "a" ∅)))
             [] "a" "b" (VNum 1) (VNum 2) H).
  - split; [exact Habs|].
    exact (proj1 (proj2 (proj2 (proj2
      (updateNodeConfig_merges [] Sample.loaded_ab "zz" ∅)))) Habs).
Defined.

(** ** Connect mode *)

(** From Idle, clicking [A] (with a non-empty id) and then a node [B] with
    another id appends exactly the edge from [A] to [B], notifies once and
    returns to Idle. *)
Lemma click_pair_creates_one_edge (ns ns' : list Node) (es es' : list Edge)
    (st : Session) (t1 t2 : N) (A B : Node) :
  connectFrom st = None -> node_id A ≠ "" -> node_id A ≠ node_id B ->
  let r1 := onNodeClick true ns es st t1 A in
  let r2 := onNodeClick true ns' es' r1.1 t2 B in
  r1 = ({| nodes := nodes st; edges := edges st; connectFrom := Some (node_id A) |}, [])
  ∧ r2 = ({| nodes := nodes st; edges := edges st ++ [click_edge A B t2];
             connectFrom := None |},
          [WorkflowChange (doc ns' (es' ++ [click_edge A B t2]))]).
Proof.
  intros Hidle HA Hdiff. unfold onNodeClick. rewrite Hidle. simpl.
  destruct (String.eqb_spec (node_id A) ""); [done|]. simpl.
  by rewrite bool_decide_true.
Qed.

(** From Idle, clicking [A] twice creates no edge and notifies nobody. *)
Lemma click_same_node_creates_no_edge (ns ns' : list Node) (es es' : list Edge)
    (st : Session) (t1 t2 : N) (A : Node) :
  connectFrom st = None ->
  let r1 := onNodeClick true ns es st t1 A in
  let r2 := onNodeClick true ns' es' r1.1 t2 A in
  edges r2.1 = edges st ∧ nodes r2.1 = nodes st ∧ r1.2 = [] ∧ r2.2 = [].
Proof.
  intros Hidle. unfold onNodeClick. rewrite Hidle. simpl.
  destruct (String.eqb (node_id A) "") eqn:He; simpl; rewrite ?He; simpl; [done|].
  by rewrite bool_decide_false by (intros H; by apply H).
Qed.

(** A pane click whose closure captured connect mode as on resets the
    cursor and creates no edge. *)
Lemma pane_click_resets_when_captured_on (st : Session) :
  onPaneClick true st
  = ({| nodes := nodes st; edges := edges st; connectFrom := None |}, []).
Proof. reflexivity. Qed.

(** A pane click whose closure captured connect mode as off leaves the
    session, cursor included, as it is. *)
Lemma pane_click_stale_keeps_cursor (st : Session) :
  onPaneClick false st = (st, [NodeSelect None]).
Proof. reflexivity. Qed.

(** C8 (fails on the code): the canvas is mounted with connect mode off and
    the owner then turns it on.  After loading nodes [a], [b] and clicking
    [a], a click on the empty pane runs the [onPaneClick] of the first
    render: it calls [onNodeSelect(null)] and leaves the cursor on [a], so
    the machine is not back in Idle and a following click on [b] creates
    the edge from [a] to [b]. *)
Theorem pane_click_after_toggle_stays_armed :
  let c0 := (gesture_sync (setConnectMode true (mount false)) (Some Sample.doc_ab)).1 in
  let c1 := (gesture_nodeClick c0 1 Sample.a).1 in
  let p := gesture_paneClick c1 in
  let c3 := (gesture_nodeClick p.1 2 Sample.b).1 in
  connectMode c1 = true
  ∧ connectFrom (session c0) = None
  ∧ connectFrom (session c1) = Some "a"
  ∧ p.2 = [NodeSelect None]
  ∧ connectFrom (session p.1) = Some "a"
  ∧ edges (session c3) = [Sample.a_to_b; click_edge Sample.a Sample.b 2].
Proof. repeat split; by vm_compute. Qed.

(** ** Drop-create *)

(** [JSON.parse] runs before the guard on [type]: when it throws, so does
    the handler. *)
Lemma onDrop_unparseable_throws (c_nodes : list Node) (c_edges : list Edge)
    (st : Session) (ev : DropEvent) (e : JSError) :
  dt_componentData ev = Throw e -> onDrop c_nodes c_edges st ev = Throw e.
Proof. intros H. unfold onDrop. by rewrite H. Qed.

(** With a payload that parses, a missing [application/reactflow] format is
    the silent return of lines 118-120. *)
Lemma onDrop_missing_type_returns (c_nodes : list Node) (c_edges : list Edge)
    (st : Session) (ev : DropEvent) (v : Value) :
  dt_componentData ev = Normal v -> dt_reactflow ev = "" ->
  onDrop c_nodes c_edges st ev = Normal (st, []).
Proof. intros Hv Ht. unfold onDrop. by rewrite Hv, Ht. Qed.

(** A payload that parses to [null] passes the guard and throws on
    [componentData.label]. *)
Lemma onDrop_null_payload_throws (c_nodes : list Node) (c_edges : list Edge)
    (st : Session) (ev : DropEvent) :
  dt_componentData ev = Normal VNull -> dt_reactflow ev ≠ "" ->
  onDrop c_nodes c_edges st ev = Throw TypeError.
Proof.
  intros Hv Ht. unfold onDrop. rewrite Hv.
  by destruct (String.eqb_spec (dt_reactflow ev) "").
Qed.

(** C9 (fails on the code): on a drop without creation data the handler
    does not return; the [SyntaxError] of [JSON.parse] escapes it. *)
Theorem drop_without_payload_throws (st : Session) :
  gesture_drop st SampleDrop.empty_drop = Throw SyntaxError.
Proof. reflexivity. Qed.

(** C10 as stated fails: dropping the same component again in the same
    millisecond yields the id [output_7] a second time, and the node
    sequence grows. *)
Lemma duplicate_drop_changes_nodes :
  "output_7" ∈ map node_id (nodes SampleDrop.after_drop)
  ∧ ∃ r, gesture_drop SampleDrop.after_drop SampleDrop.drop_output = Normal r
         ∧ nodes r.1 ≠ nodes SampleDrop.after_drop
         ∧ map node_id (nodes r.1) = ["a"; "b"; "output_7"; "output_7"].
Proof.
  split.
  { apply list_elem_of_In. vm_compute. by right; right; left. }
  eexists. split; [reflexivity|]. split.
  - intros H. apply (f_equal length) in H. by vm_compute in H.
  - by vm_compute.
Qed.

(** C10, amended: a drop with a non-empty [application/reactflow] format
    and an object payload, whose generated id is already the id of a node
    in the session, raises nothing and is not ignored: the new node is
    appended after the existing nodes, which stay as they are, so the
    sequence is one longer and holds the id twice; the owner is notified
    once, with the sanitized extended sequence. *)
Theorem duplicate_drop_appends (st : Session) (ev : DropEvent) (o : gmap string Value) :
  dt_reactflow ev ≠ "" ->
  dt_componentData ev = Normal (VObj o) ->
  newId (dt_componentType ev) (drop_now ev) ∈ map node_id (nodes st) ->
  let newNode := dropped_node (nodes st) (edges st) ev o in
  gesture_drop st ev
  = Normal ({| nodes := nodes st ++ [newNode]; edges := edges st;
               connectFrom := connectFrom st |},
            [WorkflowChange (doc (sanitizeNodes (nodes st ++ [newNode])) (edges st))])
  ∧ node_id newNode = newId (dt_componentType ev) (drop_now ev)
  ∧ length (nodes st ++ [newNode]) = S (length (nodes st))
  ∧ ∃ i j, i < j
           ∧ node_id <$> (nodes st ++ [newNode]) !! i = Some (node_id newNode)
           ∧ node_id <$> (nodes st ++ [newNode]) !! j = Some (node_id newNode).
Proof.
  intros Htype Hdata Hdup. unfold gesture_drop, onDrop. rewrite Hdata.
  destruct (String.eqb_spec (dt_reactflow ev) ""); [done|]. simpl.
  split; [done|]. split; [done|]. split; [rewrite length_app; simpl; lia|].
  apply list_elem_of_In, in_map_iff in Hdup as (m & Hid & Hm).
  apply list_elem_of_In, list_elem_of_lookup in Hm as [i Hi].
  exists i, (length (nodes st)). split; [by eapply lookup_lt_Some|]. split.
  - rewrite lookup_app_l by by eapply lookup_lt_Some. by rewrite Hi; simpl; rewrite Hid.
  - rewrite lookup_app_r by lia. by rewrite Nat.sub_diag.
Qed.

Lemma duplicate_drop_appends_witness :
  let st := SampleDrop.after_drop in
  let ev := SampleDrop.drop_output in
  (dt_reactflow ev ≠ ""
   ∧ newId (dt_componentType ev) (drop_now ev) ∈ map node_id (nodes st))
  ∧ ∃ r, gesture_drop st ev = Normal r ∧ length (nodes r.1) = 4.
Proof.
  assert (Htype : dt_reactflow SampleDrop.drop_output ≠ "") by discriminate.
  assert (Hdup : newId (dt_componentType SampleDrop.drop_output)
                   (drop_now SampleDrop.drop_output)
                 ∈ map node_id (nodes SampleDrop.after_drop)).
  { apply list_elem_of_In. vm_compute. by right; right; left. }
  split; [by split|].
  eexists. split.
  - exact (proj1 (duplicate_drop_appends SampleDrop.after_drop SampleDrop.drop_output
                    _ Htype eq_refl Hdup)).
  - reflexivity.
Defined.

(** * Further properties *)

(** ** The reconciler and the owner's echo *)

Lemma map_node_id_sanitizeNodes (ns : list Node) :
  map node_id (sanitizeNodes ns) = map node_id ns.
Proof. unfold sanitizeNodes. rewrite map_map. by apply map_ext. Qed.

Lemma map_node_id_hydrate (c_edges : list Edge) (ns : list Node) :
  map node_id (map (hydrate c_edges) ns) = map node_id ns.
Proof. rewrite map_map. by apply map_ext. Qed.

(** The two outcomes of the effect on a present document, by id sequences. *)
Lemma syncWorkflow_in_sync (st : Session) (w : Workflow) :
  map node_id (nodes st) = map node_id (default [] (w_nodes w)) ->
  map edge_id (edges st) = map edge_id (default [] (w_edges w)) ->
  syncWorkflow st (Some w) = (st, []).
Proof.
  intros Hn He. unfold syncWorkflow.
  apply (same_ids_spec node_id node_id) in Hn.
  apply (same_ids_spec edge_id edge_id) in He.
  by rewrite Hn, He.
Qed.

Lemma syncWorkflow_adopts (st : Session) (w : Workflow) :
  map node_id (nodes st) ≠ map node_id (default [] (w_nodes w))
  ∨ map edge_id (edges st) ≠ map edge_id (default [] (w_edges w)) ->
  syncWorkflow st (Some w)
  = ({| nodes := map (hydrate (edges st)) (default [] (w_nodes w));
        edges := default [] (w_edges w);
        connectFrom := connectFrom st |}, []).
Proof.
  intros Hdiff. unfold syncWorkflow.
  assert (Hgate : same_ids node_id node_id (nodes st) (default [] (w_nodes w))
                  && same_ids edge_id edge_id (edges st) (default [] (w_edges w))
                  = false).
  { apply andb_false_iff. destruct Hdiff as [H | H]; [left | right];
      by apply same_ids_false. }
  cbv zeta. by rewrite Hgate.
Qed.

Lemma ids_dec (st : Session) (w : Workflow) :
  (map node_id (nodes st) = map node_id (default [] (w_nodes w))
   ∧ map edge_id (edges st) = map edge_id (default [] (w_edges w)))
  ∨ (map node_id (nodes st) ≠ map node_id (default [] (w_nodes w))
     ∨ map edge_id (edges st) ≠ map edge_id (default [] (w_edges w))).
Proof.
  destruct (decide (map node_id (nodes st) = map node_id (default [] (w_nodes w))));
    destruct (decide (map edge_id (edges st) = map edge_id (default [] (w_edges w))));
    auto.
Qed.

(** X1: running the effect again on the same document changes nothing:
    whatever the first run did, the session it leaves is in sync with the
    document, so the re-render that an adoption causes ends the cycle. *)
Theorem syncWorkflow_settles (st : Session) (workflow : option Workflow) :
  let st' := (syncWorkflow st workflow).1 in
  syncWorkflow st' workflow = (st', []).
Proof.
  destruct workflow as [w|]; [|done]. cbv zeta.
  destruct (ids_dec st w) as [[Hn He] | Hdiff].
  - rewrite (syncWorkflow_in_sync st w Hn He). cbn [fst].
    by apply syncWorkflow_in_sync.
  - rewrite (syncWorkflow_adopts st w Hdiff). cbn [fst].
    apply syncWorkflow_in_sync; simpl; [apply map_node_id_hydrate | done].
Qed.

(** X2: the document a drop notifies is in sync with the session the drop
    leaves: when the owner hands it back, the effect changes nothing. *)
Theorem drop_echo_is_noop (st st' : Session) (event : DropEvent) (w : Workflow) :
  gesture_drop st event = Normal (st', [WorkflowChange w]) ->
  syncWorkflow st' (Some w) = (st', []).
Proof.
  unfold gesture_drop, onDrop. intros H.
  destruct (dt_componentData event) as [v|]; [|done].
  destruct (String.eqb _ _); [done|].
  destruct (payload_get v "label"); [|done].
  destruct (payload_get v "defaultConfig"); [|done].
  injection H as <- <-.
  apply syncWorkflow_in_sync; simpl; [|done].
  by rewrite map_node_id_sanitizeNodes.
Qed.

Lemma drop_echo_is_noop_witness :
  ∃ st' w,
    gesture_drop Sample.loaded_ab SampleDrop.drop_output
    = Normal (st', [WorkflowChange w])
    ∧ syncWorkflow st' (Some w) = (st', []).
Proof.
  eexists. eexists.
  assert (H : gesture_drop Sample.loaded_ab SampleDrop.drop_output
              = Normal ((SampleDrop.after_drop,
                         [WorkflowChange
                            (doc (sanitizeNodes (nodes SampleDrop.after_drop))
                               (edges Sample.loaded_ab))]))).
  { vm_compute. reflexivity. }
  split; [exact H|].
  exact (drop_echo_is_noop _ _ _ _ H).
Defined.


(** X4: a config edit notifies the owner with the edges its closure
    captured.  When the owner hands that document back, the session is left
    alone if those edges have the ids of the session's edges; otherwise the
    session's edges are replaced by the captured ones, so edges made or
    removed since the closure was created are undone, and the nodes are
    rehydrated from the sanitized, edited ones. *)
Theorem config_edit_echo (c_edges : list Edge) (st : Session) (nodeId : string)
    (newConfig : gmap string Value) :
  let r := onUpdateConfig c_edges st nodeId newConfig in
  let w := doc (sanitizeNodes (nodes r.1)) c_edges in
  r.2 = [WorkflowChange w]
  ∧ edges r.1 = edges st
  ∧ (map edge_id c_edges = map edge_id (edges st) ->
     syncWorkflow r.1 (Some w) = (r.1, []))
  ∧ (map edge_id c_edges ≠ map edge_id (edges st) ->
     syncWorkflow r.1 (Some w)
     = ({| nodes := map (hydrate (edges st)) (sanitizeNodes (nodes r.1));
           edges := c_edges;
           connectFrom := connectFrom st |}, [])).
Proof.
  cbv zeta. unfold onUpdateConfig. cbn [fst snd nodes edges].
  split; [done|]. split; [done|]. split.
  - intros Hsame. apply syncWorkflow_in_sync; simpl; [|done].
    by rewrite map_node_id_sanitizeNodes.
  - intros Hdiff. rewrite syncWorkflow_adopts; [done|].
    right. simpl. by intros H.
Qed.

Lemma config_edit_echo_witness :
  let st := (gesture_connect Sample.loaded_ab
               {| edge_id := "e2"; source := "b"; target := "a" |}).1 in
  let r := onUpdateConfig [] st "a" {["k" := VNum 1]} in
  map edge_id ([] : list Edge) ≠ map edge_id (edges st)
  ∧ length (edges st) = 2
  ∧ edges (syncWorkflow r.1 (Some (doc (sanitizeNodes (nodes r.1)) []))).1 = [].
Proof.
  cbv zeta.
  assert (H : map edge_id ([] : list Edge)
              ≠ map edge_id (edges (gesture_connect Sample.loaded_ab
                   {| edge_id := "e2"; source := "b"; target := "a" |}).1)).
  { vm_compute. discriminate. }
  split; [exact H|]. split; [reflexivity|].
  rewrite (proj2 (proj2 (proj2 (config_edit_echo [] _ "a" {["k" := VNum 1]}))) H).
  reflexivity.
Defined.

(** X5: the same for the two delete handles.  The one attached on
    reconciliation notifies the captured edges unfiltered; the one attached
    on drop notifies the nodes and edges of the drop's render, filtered.
    Unless these have the ids of what the session now holds, handing the
    document back replaces the session by it: the reconciled handle brings
    back the captured edges, the dropped handle resets the graph to that of
    the drop's render without the deleted node. *)
Theorem delete_handle_echo (st : Session) (nodeId : string) :
  (∀ c_edges : list Edge,
     let r := hydrated_onDelete c_edges st nodeId in
     let w := doc (sanitizeNodes (nodes r.1)) c_edges in
     r.2 = [WorkflowChange w]
     ∧ (map edge_id c_edges ≠ map edge_id (edges r.1) ->
        syncWorkflow r.1 (Some w)
        = ({| nodes := map (hydrate (edges r.1)) (sanitizeNodes (nodes r.1));
              edges := c_edges;
              connectFrom := connectFrom st |}, [])))
  ∧ (∀ (c_nodes : list Node) (c_edges : list Edge),
       let r := dropped_onDelete c_nodes c_edges st nodeId in
       let ns := filter (fun n => node_id n ≠ nodeId) c_nodes in
       let es := filter (not_incident nodeId) c_edges in
       r.2 = [WorkflowChange (doc ns es)]
       ∧ (map node_id ns ≠ map node_id (nodes r.1)
          ∨ map edge_id es ≠ map edge_id (edges r.1) ->
          syncWorkflow r.1 (Some (doc ns es))
          = ({| nodes := map (hydrate (edges r.1)) ns;
                edges := es;
                connectFrom := connectFrom st |}, []))).
Proof.
  split.
  - intros c_edges. cbv zeta. unfold hydrated_onDelete. cbn [fst snd nodes edges].
    split; [done|]. intros Hdiff. rewrite syncWorkflow_adopts; [done|].
    right. simpl. by intros H.
  - intros c_nodes c_edges. cbv zeta. unfold dropped_onDelete.
    cbn [fst snd nodes edges]. split; [done|]. intros Hdiff.
    rewrite syncWorkflow_adopts; [done|]. simpl.
    destruct Hdiff as [H | H]; [left | right]; by intros H'.
Qed.

Lemma delete_handle_echo_witness :
  let r := hydrated_onDelete [Sample.a_to_b] Sample.loaded_abc "a" in
  map edge_id [Sample.a_to_b] ≠ map edge_id (edges r.1)
  ∧ edges (syncWorkflow r.1 (Some (doc (sanitizeNodes (nodes r.1)) [Sample.a_to_b]))).1
    = [Sample.a_to_b].
Proof.
  cbv zeta.
  assert (H : map edge_id [Sample.a_to_b]
              ≠ map edge_id (edges (hydrated_onDelete [Sample.a_to_b]
                                      Sample.loaded_abc "a").1)).
  { vm_compute. discriminate. }
  split; [exact H|].
  rewrite (proj2 (proj1 (delete_handle_echo Sample.loaded_abc "a") [Sample.a_to_b]) H).
  reflexivity.
Defined.

(** ** Drop-create: outcomes and the node built *)

(** X6: when [onDrop] throws.  It throws exactly when [JSON.parse] throws
    (whatever the [application/reactflow] format), with that error, or when
    that format is present and the payload parsed to [null], with a
    [TypeError]; a payload of any other kind (object, string, number,
    boolean) never makes it throw. *)
Theorem onDrop_throws_iff (c_nodes : list Node) (c_edges : list Edge)
    (st : Session) (event : DropEvent) (e : JSError) :
  onDrop c_nodes c_edges st event = Throw e
  <-> dt_componentData event = Throw e
      ∨ (dt_reactflow event ≠ "" ∧ e = TypeError
         ∧ (dt_componentData event = Normal VNull
            ∨ dt_componentData event = Normal VUndefined)).
Proof.
  unfold onDrop. destruct (dt_componentData event) as [v|e'].
  - destruct (String.eqb_spec (dt_reactflow event) "") as [Ht|Ht].
    + split; [done|]. intros [? | (? & _)]; done.
    + destruct v; simpl; split; try done;
        try (intros [? | (_ & _ & [? | ?])]; done);
        try (intros [= <-]; right; auto);
        try (intros [? | (_ & -> & _)]; done).
  - split; [intros [= ->]; by left|]. intros [[= ->] | (_ & _ & [? | ?])]; done.
Qed.

(** The three properties [onDrop] writes after the payload spread. *)
Lemma newNode_data_fixed (c_nodes : list Node) (c_edges : list Edge)
    (componentType : string) (componentData label defaultConfig : Value) :
  let d := newNode_data c_nodes c_edges componentType componentData label defaultConfig in
  d !! "onDelete" = Some (VFun (DroppedOnDelete c_nodes c_edges))
  ∧ d !! "onUpdateConfig" = Some (VFun (OnUpdateConfig c_edges))
  ∧ d !! "result"
    = Some (if bool_decide (componentType = "output")
            then VObj {["formatted_response" := VStr ""]} else VUndefined).
Proof.
  cbv zeta. unfold newNode_data. repeat split.
  - rewrite !lookup_insert_ne by done. by rewrite lookup_insert_eq.
  - rewrite lookup_insert_ne by done. by rewrite lookup_insert_eq.
  - by rewrite lookup_insert_eq.
Qed.

(** X7: what a drop that does not throw does.  Either the
    [application/reactflow] format is missing and nothing happens, or
    exactly one node is appended after the session's nodes, with the id
    [componentType_now], type ['custom'] and the drop position, the edges
    and the connect cursor are kept, and the owner is notified once with
    the sanitized nodes, in sync with the new session's ids. *)
Theorem onDrop_returns (st : Session) (event : DropEvent) (r : Session * list Output) :
  gesture_drop st event = Normal r ->
  (dt_reactflow event = "" ∧ r = (st, []))
  ∨ (dt_reactflow event ≠ ""
     ∧ ∃ newNode : Node,
         nodes r.1 = nodes st ++ [newNode]
         ∧ edges r.1 = edges st
         ∧ connectFrom r.1 = connectFrom st
         ∧ node_id newNode = newId (dt_componentType event) (drop_now event)
         ∧ node_type newNode = Some "custom"
         ∧ position newNode = drop_position event
         ∧ wired newNode = true
         ∧ r.2 = [WorkflowChange (doc (sanitizeNodes (nodes r.1)) (edges st))]).
Proof.
  unfold gesture_drop, onDrop. intros H.
  destruct (dt_componentData event) as [v|]; [|done].
  destruct (String.eqb_spec (dt_reactflow event) "") as [Ht|Ht].
  - left. by injection H as <-.
  - right. split; [done|].
    destruct (payload_get v "label") as [label|]; [|done].
    destruct (payload_get v "defaultConfig") as [defaultConfig|]; [|done].
    injection H as <-. eexists. repeat split.
    unfold wired, JS.data_get, JS.get, JS.data_or_empty. cbn [data default id].
    destruct (newNode_data_fixed (nodes st) (edges st) (dt_componentType event)
                v label defaultConfig) as (-> & -> & _).
    done.
Qed.

Lemma onDrop_returns_witness :
  ∃ r, gesture_drop Sample.loaded_ab SampleDrop.drop_output = Normal r
       ∧ dt_reactflow SampleDrop.drop_output ≠ ""
       ∧ ∃ newNode, nodes r.1 = nodes Sample.loaded_ab ++ [newNode]
                    ∧ node_id newNode = "output_7".
Proof.
  eexists. split; [reflexivity|].
  destruct (onDrop_returns Sample.loaded_ab SampleDrop.drop_output _ eq_refl)
    as [[Hempty _] | (Htype & newNode & Hnodes & _ & _ & Hid & _)].
  - discriminate Hempty.
  - split; [exact Htype|]. exists newNode. split; [exact Hnodes|].
    rewrite Hid. vm_compute. reflexivity.
Defined.

(** X8: the data of a node dropped with an object payload.  [onDelete],
    [onUpdateConfig] and [result] are written after the payload is spread,
    so the payload cannot set them: [result] is
    [{ formatted_response: '' }] for the component type ['output'] and
    [undefined] otherwise.  Every other property is the payload's when the
    payload has it; when it has not, [type] is the component type, [config]
    is [defaultConfig || {}] and anything else is [undefined]. *)
Theorem dropped_node_data (st : Session) (event : DropEvent) (o : gmap string Value) :
  dt_reactflow event ≠ "" ->
  dt_componentData event = Normal (VObj o) ->
  let n := dropped_node (nodes st) (edges st) event o in
  (∃ outs, gesture_drop st event
           = Normal ({| nodes := nodes st ++ [n]; edges := edges st;
                        connectFrom := connectFrom st |}, outs))
  ∧ JS.data_get n "onDelete" = VFun (DroppedOnDelete (nodes st) (edges st))
  ∧ JS.data_get n "onUpdateConfig" = VFun (OnUpdateConfig (edges st))
  ∧ JS.data_get n "result"
    = (if bool_decide (dt_componentType event = "output")
       then VObj {["formatted_response" := VStr ""]} else VUndefined)
  ∧ ∀ k : string,
      k ≠ "onDelete" -> k ≠ "onUpdateConfig" -> k ≠ "result" ->
      JS.data_get n k
      = match o !! k with
        | Some v => v
        | None =>
            if bool_decide (k = "type") then VStr (dt_componentType event)
            else if bool_decide (k = "config")
                 then JS.or (JS.get o "defaultConfig") (VObj ∅)
                 else VUndefined
        end.
Proof.
  intros Htype Hdata. cbv zeta.
  pose proof (newNode_data_fixed (nodes st) (edges st) (dt_componentType event)
                (VObj o) (JS.get o "label") (JS.get o "defaultConfig"))
    as (Hdel & Hupd & Hres).
  assert (Hget : ∀ k, JS.data_get (dropped_node (nodes st) (edges st) event o) k
                      = default VUndefined
                          (newNode_data (nodes st) (edges st) (dt_componentType event)
                             (VObj o) (JS.get o "label") (JS.get o "defaultConfig")
                           !! k)) by done.
  split; [|split; [|split; [|split]]].
  - unfold gesture_drop, onDrop. rewrite Hdata.
    destruct (String.eqb_spec (dt_reactflow event) ""); [done|]. simpl. by eexists.
  - by rewrite Hget, Hdel.
  - by rewrite Hget, Hupd.
  - by rewrite Hget, Hres.
  - intros k Hd Hu Hr. rewrite Hget. clear Hget Hdel Hupd Hres.
    unfold newNode_data. rewrite !lookup_insert_ne by done.
    rewrite lookup_union. cbn [JS.spread].
    destruct (o !! k) as [v|] eqn:Hk; simpl.
    { by destruct (<["config" := _]> _ !! k). }
    rewrite (left_id None _).
    destruct (decide (k = "config")) as [->|Hc].
    { by rewrite lookup_insert_eq. }
    rewrite lookup_insert_ne by done. rewrite (bool_decide_false (k = "config")) by done.
    destruct (decide (k = "type")) as [->|Hty].
    { by rewrite lookup_insert_eq. }
    rewrite lookup_insert_ne by done. rewrite bool_decide_false by done.
    destruct (decide (k = "label")) as [->|Hl].
    { rewrite lookup_insert_eq. unfold JS.get. by rewrite Hk. }
    by rewrite lookup_insert_ne by done.
Qed.

Lemma dropped_node_data_witness :
  dt_reactflow SampleDrop.drop_output ≠ ""
  ∧ JS.data_get (dropped_node (nodes Sample.loaded_ab) (edges Sample.loaded_ab)
                   SampleDrop.drop_output
                   (<["label" := VStr "Output"]>
                      (<["defaultConfig" := VObj {["max_history" := VNum 50]}]> ∅)))
      "result"
    = VObj {["formatted_response" := VStr ""]}.
Proof.
  assert (Htype : dt_reactflow SampleDrop.drop_output ≠ "") by discriminate.
  split; [exact Htype|].
  exact (proj1 (proj2 (proj2 (proj2
    (dropped_node_data Sample.loaded_ab SampleDrop.drop_output _ Htype eq_refl))))).
Defined.

(** ** Ids of dropped nodes *)

Lemma occurs_pretty_N_go (c : Ascii.ascii) (x : N) (s : string) :
  (∀ d : N, Ascii.eqb c (pretty_N_char d) = false) ->
  occurs c (pretty_N_go x s) = occurs c s.
Proof.
  intros Hc. revert s. induction (N.lt_wf_0 x) as [x _ IH]; intros s.
  destruct (decide (0 < x)%N) as [Hpos|Hzero].
  - rewrite pretty_N_go_step by done.
    rewrite IH by (by apply N.div_lt). simpl. by rewrite Hc.
  - assert (x = 0%N) as -> by lia. by rewrite pretty_N_go_0.
Qed.

Lemma underscore_not_digit (d : N) : Ascii.eqb "_"%char (pretty_N_char d) = false.
Proof. unfold pretty_N_char. by repeat case_match. Qed.

Lemma occurs_underscore_pretty (n : N) : occurs "_"%char (pretty n) = false.
Proof.
  unfold pretty, pretty_N. case_decide; [done|].
  rewrite occurs_pretty_N_go; [done | apply underscore_not_digit].
Qed.

Lemma occurs_middle (c : Ascii.ascii) (s d : string) :
  occurs c (s +:+ String c d) = true.
Proof.
  induction s as [|a s IH]; simpl.
  - by rewrite Ascii.eqb_refl.
  - rewrite IH. apply orb_true_r.
Qed.

(** A string is split in one way only at its last occurrence of [c]. *)
Lemma split_at_last (c : Ascii.ascii) (s1 s2 d1 d2 : string) :
  occurs c d1 = false -> occurs c d2 = false ->
  s1 +:+ String c d1 = s2 +:+ String c d2 -> s1 = s2 ∧ d1 = d2.
Proof.
  intros H1 H2. revert s2. induction s1 as [|a s1 IH]; intros [|b s2] Heq; simpl in Heq.
  - by injection Heq as ->.
  - injection Heq as <- ->. by rewrite occurs_middle in H1.
  - injection Heq as -> <-. by rewrite occurs_middle in H2.
  - injection Heq as -> Heq. apply IH in Heq as [-> ->]. done.
Qed.

(** X9: the id scheme [componentType_now] of dropped nodes decodes
    uniquely: two drops get the same id only if they have the same
    component type and the same [Date.now()]. *)
Theorem newId_inj (type1 type2 : string) (now1 now2 : N) :
  newId type1 now1 = newId type2 now2 -> type1 = type2 ∧ now1 = now2.
Proof.
  unfold newId. intros Heq.
  apply (split_at_last "_"%char) in Heq as [-> Hnow];
    [|apply occurs_underscore_pretty..].
  split; [done|]. by apply (inj pretty).
Qed.

Lemma newId_inj_witness :
  newId "output" 7 = newId "output" 7 ∧ ("output" = "output" ∧ (7 = 7)%N).
Proof.
  split; [reflexivity|].
  exact (newId_inj "output" "output" 7 7 eq_refl).
Defined.

(** ** Hydration and sanitization *)

Lemma type_or_custom_idempotent (t : option string) :
  type_or_custom (Some (type_or_custom t)) = type_or_custom t.
Proof.
  destruct t as [s|]; simpl; [|done].
  destruct (String.eqb s "") eqn:Hs; simpl; [done|]. by rewrite Hs.
Qed.

(** Writing both callbacks over a property bag hides whatever was written
    to them before. *)
Lemma handles_overwrite (d : gmap string Value) (x y x' y' : Value) :
  <["onUpdateConfig" := x]> (<["onDelete" := y]>
    (<["onUpdateConfig" := x']> (<["onDelete" := y']> d)))
  = <["onUpdateConfig" := x]> (<["onDelete" := y]> d).
Proof.
  apply map_eq. intros k.
  destruct (decide (k = "onUpdateConfig")) as [->|Hu];
    [by rewrite !lookup_insert_eq|].
  destruct (decide (k = "onDelete")) as [->|Hd].
  - rewrite !(lookup_insert_ne _ "onUpdateConfig") by done.
    by rewrite !lookup_insert_eq.
  - by repeat (rewrite lookup_insert_ne by done).
Qed.

Lemma hydrate_sanitizeNode_hydrate (es es' : list Edge) (n : Node) :
  hydrate es (sanitizeNode (hydrate es' n)) = hydrate es n.
Proof.
  unfold hydrate, sanitizeNode, JS.data_or_empty.
  cbn [node_id node_type position data default id].
  rewrite type_or_custom_idempotent. do 2 f_equal.
  by rewrite !handles_overwrite.
Qed.

Lemma sanitizeNode_hydrate_sanitizeNode (es : list Edge) (n : Node) :
  typed n = true -> sanitizeNode (hydrate es (sanitizeNode n)) = sanitizeNode n.
Proof.
  unfold typed. destruct n as [i [t|] p d]; simpl; [|done]. intros Ht.
  unfold hydrate, sanitizeNode, JS.data_or_empty.
  cbn [node_id node_type position data default id type_or_custom].
  destruct (String.eqb t ""); [done|]. do 2 f_equal.
  by rewrite !handles_overwrite.
Qed.

Lemma sanitizeNode_hydrate_any (es es' : list Edge) (n : Node) :
  sanitizeNode (hydrate es n) = sanitizeNode (hydrate es' n).
Proof.
  unfold hydrate, sanitizeNode, JS.data_or_empty.
  cbn [node_id node_type position data default id]. do 2 f_equal.
  apply map_eq. intros k.
  destruct (decide (k = "onUpdateConfig")) as [->|Hu];
    [by rewrite !lookup_insert_eq|].
  destruct (decide (k = "onDelete")) as [->|Hd].
  - rewrite !(lookup_insert_ne _ "onUpdateConfig") by done.
    by rewrite !lookup_insert_eq.
  - by repeat (rewrite lookup_insert_ne by done).
Qed.

(** X10: round trips between the session and the document.  Sanitizing
    hydrated nodes and hydrating them again gives the hydrated nodes back,
    whatever edges the old handles had captured; hydrating sanitized nodes
    that have a type and sanitizing them again gives the same document; and
    the document a session sanitizes to does not depend on the edges its
    handles captured. *)
Theorem hydrate_sanitize_round_trip (es es' : list Edge) (ns : list Node) :
  map (hydrate es) (sanitizeNodes (map (hydrate es') ns)) = map (hydrate es) ns
  ∧ (Forall (fun n => typed n = true) ns ->
     sanitizeNodes (map (hydrate es) (sanitizeNodes ns)) = sanitizeNodes ns)
  ∧ sanitizeNodes (map (hydrate es) ns) = sanitizeNodes (map (hydrate es') ns).
Proof.
  unfold sanitizeNodes. repeat split.
  - rewrite !map_map. apply map_ext. intros n. apply hydrate_sanitizeNode_hydrate.
  - intros Htyped. rewrite !map_map. apply map_ext_Forall.
    eapply Forall_impl; [exact Htyped|]. intros n Hn.
    by apply sanitizeNode_hydrate_sanitizeNode.
  - rewrite !map_map. apply map_ext. intros n. apply sanitizeNode_hydrate_any.
Qed.

Lemma hydrate_sanitize_round_trip_witness :
  Forall (fun n => typed n = true) [Sample.a; Sample.b]
  ∧ sanitizeNodes (map (hydrate []) (sanitizeNodes [Sample.a; Sample.b]))
    = sanitizeNodes [Sample.a; Sample.b].
Proof.
  assert (H : Forall (fun n => typed n = true) [Sample.a; Sample.b]).
  { repeat constructor. }
  split; [exact H|].
  exact (proj1 (proj2 (hydrate_sanitize_round_trip [] [] [Sample.a; Sample.b])) H).
Defined.

(** ** What holds in every state the canvas can reach *)

Lemma healthy_hydrate (c_edges : list Edge) (n : Node) : healthy (hydrate c_edges n).
Proof.
  split.
  - unfold wired, hydrate. by read_props.
  - unfold typed, hydrate. simpl. destruct (node_type n) as [t|]; simpl; [|done].
    by destruct (String.eqb t "") eqn:Ht; simpl; [|rewrite Ht].
Qed.

Lemma healthy_merge_config (newConfig : gmap string Value) (n : Node) :
  healthy n -> healthy (merge_config newConfig n).
Proof.
  intros [Hw Ht]. split; [|done].
  unfold wired in *. unfold merge_config. revert Hw. by read_props.
Qed.

Lemma Forall_filter_keeps {A : Type} (P : A -> Prop) (Q : A -> Prop)
    `{!∀ x, Decision (Q x)} (l : list A) :
  Forall P l -> Forall P (filter Q l).
Proof.
  rewrite !Forall_forall. intros Hall x Hx.
  apply list_elem_of_filter in Hx as [_ Hx]. by apply Hall.
Qed.

Lemma Forall_map_all {A B : Type} (P : B -> Prop) (f : A -> B) (l : list A) :
  (∀ x, P (f x)) -> Forall P (map f l).
Proof. intros HP. induction l as [|x l IH]; simpl; constructor; auto. Qed.

Lemma call_keeps_healthy (f : Closure) (st : Session) (nodeId : string)
    (newConfig : gmap string Value) :
  Forall healthy (nodes st) -> Forall healthy (nodes (call f st nodeId newConfig).1).
Proof.
  intros H. destruct f; simpl.
  - by apply Forall_filter_keeps.
  - by apply Forall_filter_keeps.
  - revert H. generalize (nodes st). intros ns.
    induction ns as [|n ns IH]; intros H; simpl; [done|].
    apply Forall_cons in H as [Hn H]. constructor; [|by apply IH].
    case_bool_decide; [by apply healthy_merge_config | done].
Qed.

Lemma syncWorkflow_keeps_healthy (st : Session) (workflow : option Workflow) :
  Forall healthy (nodes st) -> Forall healthy (nodes (syncWorkflow st workflow).1).
Proof.
  intros H. destruct workflow as [w|]; [|done].
  destruct (ids_dec st w) as [[Hn He] | Hdiff].
  - by rewrite (syncWorkflow_in_sync st w Hn He).
  - rewrite (syncWorkflow_adopts st w Hdiff). cbn [fst nodes].
    apply Forall_map_all, healthy_hydrate.
Qed.

Lemma onDrop_keeps_healthy (st : Session) (event : DropEvent)
    (r : Session * list Output) :
  gesture_drop st event = Normal r ->
  Forall healthy (nodes st) -> Forall healthy (nodes r.1).
Proof.
  intros Hr H. unfold gesture_drop, onDrop in Hr.
  destruct (dt_componentData event) as [v|]; [|done].
  destruct (String.eqb _ _); [by injection Hr as <-|].
  destruct (payload_get v "label") as [label|]; [|done].
  destruct (payload_get v "defaultConfig") as [defaultConfig|]; [|done].
  injection Hr as <-. cbn [fst nodes]. apply Forall_app. split; [done|].
  constructor; [|done]. split; [|done].
  unfold wired, JS.data_get, JS.get, JS.data_or_empty. cbn [data default id].
  by destruct (newNode_data_fixed (nodes st) (edges st) (dt_componentType event)
                 v label defaultConfig) as (-> & -> & _).
Qed.

Lemma gesture_step_keeps_healthy (c c' : Canvas) :
  gesture_step c c' ->
  Forall healthy (nodes (session c)) -> Forall healthy (nodes (session c')).
Proof.
  intros Hstep H. destruct Hstep; cbn [with_session gesture_sync fst session]; try done.
  - by apply syncWorkflow_keeps_healthy.
  - unfold gesture_nodeClick, onNodeClick. cbn [with_session fst session].
    repeat case_match; done.
  - unfold gesture_paneClick, onPaneClick. cbn [with_session fst session].
    by case_match.
  - by eapply onDrop_keeps_healthy.
  - unfold CustomNode_delete. case_match; try done. by apply call_keeps_healthy.
  - unfold CustomNode_updateConfig. case_match; try done. by apply call_keeps_healthy.
Qed.

Lemma reachable_healthy (mode : bool) (c : Canvas) :
  reachable mode c -> Forall healthy (nodes (session c)).
Proof.
  unfold reachable. revert c. apply rtc_ind_r; [by constructor|].
  intros c1 c2 _ Hstep IH.
  destruct Hstep as [c1 c2 Hg | c1 m]; [|done].
  by eapply gesture_step_keeps_healthy.
Qed.

(** X11: in every state the canvas can reach from its mount (through its
    handlers, the two buttons of [CustomNode], reconciliations with any
    document and changes of [connectMode]) each node of the session holds a
    delete closure in [onDelete], the config closure in [onUpdateConfig]
    and a non-empty type; and the Delete button of any node of the session
    leaves no node with its id and no edge on it in the session, and
    notifies the owner, no notified document holding a node with that id.
    (How often the owner is called is left open: a call made inside a
    state updater is repeated when React runs the updater again.) *)
Theorem reachable_nodes_are_wired (mode : bool) (c : Canvas) :
  reachable mode c ->
  Forall (fun n => wired n = true ∧ typed n = true) (nodes (session c))
  ∧ ∀ node : Node, node ∈ nodes (session c) ->
      let r := CustomNode_delete (session c) node in
      (node_id node ∉ map node_id (nodes r.1))
      ∧ no_edge_on [node_id node] (edges r.1)
      ∧ (∃ w, WorkflowChange w ∈ r.2)
      ∧ ∀ w, WorkflowChange w ∈ r.2 ->
          node_id node ∉ map node_id (default [] (w_nodes w)).
Proof.
  intros Hreach. pose proof (reachable_healthy mode c Hreach) as Hh.
  split; [exact Hh|]. intros node Hin. cbv zeta.
  rewrite Forall_forall in Hh. destruct (Hh node Hin) as [Hw _].
  unfold wired in Hw. apply andb_true_iff in Hw as [Hdel _].
  assert (Hgone : ∀ ns : list Node,
            node_id node ∉ map node_id (filter (fun m => node_id m ≠ node_id node) ns)).
  { intros ns Hmem. apply list_elem_of_In, in_map_iff in Hmem as (m & Hid & Hm).
    apply list_elem_of_In, list_elem_of_filter in Hm as [Hne _]. by apply Hne. }
  unfold CustomNode_delete.
  destruct (JS.data_get node "onDelete") as [| | | | | |[es|ns es|es]]; try done;
    cbn [call hydrated_onDelete dropped_onDelete fst snd nodes edges].
  - split; [apply Hgone|]. split; [apply no_edge_on_filter_single|]. split.
    + eexists. apply list_elem_of_here.
    + intros w Hw. apply list_elem_of_singleton in Hw. injection Hw as ->.
      cbn [doc w_nodes default id]. rewrite map_node_id_sanitizeNodes. apply Hgone.
  - split; [apply Hgone|]. split; [apply no_edge_on_filter_single|]. split.
    + eexists. apply list_elem_of_here.
    + intros w Hw. apply list_elem_of_singleton in Hw. injection Hw as ->.
      cbn [doc w_nodes default id]. apply Hgone.
Qed.

Lemma reachable_nodes_are_wired_witness :
  let c := (gesture_sync (mount true) (Some Sample.doc_ab)).1 in
  reachable true c
  ∧ Forall (fun n => wired n = true ∧ typed n = true) (nodes (session c)).
Proof.
  cbv zeta.
  assert (H : reachable true (gesture_sync (mount true) (Some Sample.doc_ab)).1).
  { apply rtc_once, step_gesture, step_sync. }
  split; [exact H|].
  exact (proj1 (reachable_nodes_are_wired true _ H)).
Defined.

(** ** The connect cursor when the mode never changes *)

Lemma call_keeps_connectFrom (f : Closure) (st : Session) (nodeId : string)
    (newConfig : gmap string Value) :
  connectFrom (call f st nodeId newConfig).1 = connectFrom st.
Proof. by destruct f. Qed.

Lemma syncWorkflow_keeps_connectFrom (st : Session) (workflow : option Workflow) :
  connectFrom (syncWorkflow st workflow).1 = connectFrom st.
Proof.
  destruct workflow as [w|]; [|done]. unfold syncWorkflow. cbv zeta.
  by destruct (_ && _).
Qed.

Lemma gesture_drop_keeps_connectFrom (st : Session) (event : DropEvent)
    (r : Session * list Output) :
  gesture_drop st event = Normal r -> connectFrom r.1 = connectFrom st.
Proof.
  unfold gesture_drop, onDrop. intros Hr.
  destruct (dt_componentData event) as [v|]; [|done].
  destruct (String.eqb _ _); [by injection Hr as <-|].
  destruct (payload_get v "label"); [|done].
  destruct (payload_get v "defaultConfig"); [|done].
  by injection Hr as <-.
Qed.

Lemma gesture_step_keeps_modes (c c' : Canvas) :
  gesture_step c c' ->
  connectMode c' = connectMode c
  ∧ paneClick_connectMode c' = paneClick_connectMode c.
Proof. intros Hstep. by destruct Hstep. Qed.

Lemma gesture_step_keeps_idle (c c' : Canvas) :
  gesture_step c c' -> connectMode c = false ->
  connectFrom (session c) = None -> connectFrom (session c') = None.
Proof.
  intros Hstep Hmode Hidle.
  destruct Hstep; cbn [with_session gesture_sync fst session]; try done.
  - by rewrite syncWorkflow_keeps_connectFrom.
  - unfold gesture_nodeClick, onNodeClick. by rewrite Hmode.
  - unfold gesture_paneClick, onPaneClick. by case_match.
  - erewrite gesture_drop_keeps_connectFrom; done.
  - unfold CustomNode_delete. case_match; try done.
    by rewrite call_keeps_connectFrom.
  - unfold CustomNode_updateConfig. case_match; try done.
    by rewrite call_keeps_connectFrom.
Qed.

(** X12: as long as the owner never changes [connectMode] after the mount,
    both [onNodeClick] and the memoised [onPaneClick] see the mode of the
    mount.  Mounted with connect mode on, a click on the pane always empties
    the cursor, keeps nodes and edges and calls no owner callback; mounted
    with it off, the cursor is empty in every state and a click on a node
    leaves the canvas as it is and only selects the node. *)
Theorem fixed_mode_cursor (mode : bool) (c : Canvas) :
  reachable_fixed_mode mode c ->
  connectMode c = mode
  ∧ paneClick_connectMode c = mode
  ∧ (mode = true ->
     let p := gesture_paneClick c in
     connectFrom (session p.1) = None
     ∧ nodes (session p.1) = nodes (session c)
     ∧ edges (session p.1) = edges (session c)
     ∧ p.2 = [])
  ∧ (mode = false ->
     connectFrom (session c) = None
     ∧ ∀ (now : N) (node : Node),
         gesture_nodeClick c now node = (c, [NodeSelect (Some (node_id node))])).
Proof.
  intros Hreach.
  assert (Hinv : connectMode c = mode ∧ paneClick_connectMode c = mode
                 ∧ (mode = false -> connectFrom (session c) = None)).
  { revert c Hreach. apply rtc_ind_r; [done|].
    intros c1 c2 _ Hstep (Hm & Hp & Hidle).
    destruct (gesture_step_keeps_modes c1 c2 Hstep) as [-> ->].
    split; [done|]. split; [done|]. intros ->.
    apply (gesture_step_keeps_idle c1 c2); [done | done | by apply Hidle]. }
  destruct Hinv as (Hm & Hp & Hidle). split; [done|]. split; [done|]. split.
  - intros ->. cbv zeta. unfold gesture_paneClick, onPaneClick. by rewrite Hp.
  - intros ->. split; [by apply Hidle|]. intros now node.
    unfold gesture_nodeClick, onNodeClick. rewrite Hm. by destruct c.
Qed.

Lemma fixed_mode_cursor_witness :
  let c := (gesture_sync (mount false) (Some Sample.doc_ab)).1 in
  reachable_fixed_mode false c
  ∧ gesture_nodeClick c 1 Sample.a = (c, [NodeSelect (Some "a")]).
Proof.
  cbv zeta.
  assert (H : reachable_fixed_mode false
                (gesture_sync (mount false) (Some Sample.doc_ab)).1).
  { apply rtc_once, step_sync. }
  split; [exact H|].
  exact (proj2 (proj2 (proj2 (proj2 (fixed_mode_cursor false _ H))) eq_refl)
           1%N Sample.a).
Defined.

(** ** The owner's Run button *)

Lemma has_kind_spec (kind : string) (n : Node) :
  has_kind kind n = true <-> JS.data_get n "type" = VStr kind.
Proof.
  unfold has_kind, is_string. destruct (JS.data_get n "type"); try done.
  destruct (String.eqb_spec s kind) as [->|Hne]; split; try done.
  intros [= ->]. done.
Qed.

Lemma withResponse_node_id (responseText : Value) (n : Node) :
  node_id (withResponse responseText n) = node_id n.
Proof. unfold withResponse. by destruct (has_kind "output" n). Qed.

Lemma withResponse_laid (responseText : Value) (n : Node) :
  response_laid responseText n (withResponse responseText n).
Proof.
  unfold response_laid, withResponse. destruct (has_kind "output" n); [|done].
  repeat split.
  - intros k Hk. by read_props.
  - eexists. split; [by read_props|]. split; [by rewrite lookup_insert_eq|].
    intros k Hk. by rewrite lookup_insert_ne.
Qed.

(** X13: the owner's update after a run.  On a document whose nodes are an
    array it returns a document with the same edges and the same node ids
    in the same order; a node that is not of kind ['output'] is returned as
    it is, an output node gets [formatted_response] set to
    [response || ''] in its [result], keeping the other keys of [result]
    and every other property.  Since no id changes, a canvas that is in
    sync with the previous document leaves its session as it is when it
    receives the new one. *)
Theorem setResponse_keeps_ids (response : Value) (prev : Workflow) (ns : list Node) :
  w_nodes prev = Some ns ->
  let next_ns := map (withResponse (JS.or response (VStr ""))) ns in
  let next := {| w_nodes := Some next_ns; w_edges := w_edges prev |} in
  App_setResponse response prev = Normal next
  ∧ map node_id next_ns = map node_id ns
  ∧ Forall2 (response_laid (JS.or response (VStr ""))) ns next_ns
  ∧ ∀ st : Session,
      map node_id (nodes st) = map node_id ns ->
      map edge_id (edges st) = map edge_id (default [] (w_edges prev)) ->
      syncWorkflow st (Some next) = (st, []).
Proof.
  intros Hns. cbv zeta.
  assert (Hids : map node_id (map (withResponse (JS.or response (VStr ""))) ns)
                 = map node_id ns).
  { rewrite map_map. apply map_ext. intros n. apply withResponse_node_id. }
  split; [|split; [|split]].
  - unfold App_setResponse. by rewrite Hns.
  - exact Hids.
  - apply Forall2_map_self. intros n. apply withResponse_laid.
  - intros st Hn He. apply syncWorkflow_in_sync; simpl; [|done].
    by rewrite Hids.
Qed.

Lemma setResponse_keeps_ids_witness :
  let prev := doc (sanitizeNodes (nodes SampleDrop.after_drop)) [Sample.a_to_b] in
  w_nodes prev = Some (sanitizeNodes (nodes SampleDrop.after_drop))
  ∧ ∃ next, App_setResponse (VStr "42") prev = Normal next
            ∧ syncWorkflow SampleDrop.after_drop (Some next)
              = (SampleDrop.after_drop, []).
Proof.
  cbv zeta.
  pose proof (setResponse_keeps_ids (VStr "42")
                (doc (sanitizeNodes (nodes SampleDrop.after_drop)) [Sample.a_to_b])
                _ eq_refl) as (Hnext & _ & _ & Hsync).
  split; [reflexivity|]. eexists. split; [exact Hnext|].
  apply Hsync; vm_compute; reflexivity.
Defined.

(** X14: the validation before a run passes exactly when the document's
    nodes and edges are arrays, there is at least one edge, some node is of
    kind ['user_query'] and some node is of kind ['output']; so it never
    passes with fewer than two nodes.  The endpoints of the edges are not
    looked at. *)
Theorem chat_precheck_spec (workflow : Workflow) :
  (chat_precheck workflow = true
   <-> ∃ (ns : list Node) (es : list Edge),
         w_nodes workflow = Some ns ∧ w_edges workflow = Some es
         ∧ es ≠ []
         ∧ (∃ n, n ∈ ns ∧ JS.data_get n "type" = VStr "user_query")
         ∧ (∃ n, n ∈ ns ∧ JS.data_get n "type" = VStr "output"))
  ∧ (chat_precheck workflow = true ->
     ∃ ns, w_nodes workflow = Some ns ∧ 2 <= length ns).
Proof.
  assert (Hiff : chat_precheck workflow = true
   <-> ∃ (ns : list Node) (es : list Edge),
         w_nodes workflow = Some ns ∧ w_edges workflow = Some es
         ∧ es ≠ []
         ∧ (∃ n, n ∈ ns ∧ JS.data_get n "type" = VStr "user_query")
         ∧ (∃ n, n ∈ ns ∧ JS.data_get n "type" = VStr "output")).
  { unfold chat_precheck. cbv zeta.
    rewrite negb_true_iff, !orb_false_iff, !negb_false_iff.
    rewrite !existsb_exists.
    destruct (w_nodes workflow) as [ns|], (w_edges workflow) as [es|]; simpl.
    - rewrite !bool_decide_eq_true. split.
      + intros (((_ & Hes) & (q & Hq & Hqk)) & (o & Ho & Hok)).
        exists ns, es. repeat split; try done.
        * intros ->. simpl in Hes. lia.
        * exists q. split; [by apply list_elem_of_In | by apply has_kind_spec].
        * exists o. split; [by apply list_elem_of_In | by apply has_kind_spec].
      + intros (ns' & es' & [= <-] & [= <-] & Hes & (q & Hq & Hqk) & (o & Ho & Hok)).
        repeat split.
        * destruct ns; [by apply elem_of_nil in Hq | simpl; lia].
        * destruct es; [done | simpl; lia].
        * exists q. split; [by apply list_elem_of_In | by apply has_kind_spec].
        * exists o. split; [by apply list_elem_of_In | by apply has_kind_spec].
    - split; [by intros (((_ & ?) & _) & _) | by intros (? & ? & _ & ? & _)].
    - split; [by intros (((? & _) & _) & _) | by intros (? & ? & ? & _)].
    - split; [by intros (((? & _) & _) & _) | by intros (? & ? & ? & _)]. }
  split; [exact Hiff|]. intros Hok.
  apply Hiff in Hok as (ns & es & Hns & _ & _ & (q & Hq & Hqk) & (o & Ho & Hok)).
  exists ns. split; [done|].
  assert (Hne : q ≠ o) by (intros ->; congruence).
  destruct ns as [|x [|y ns]]; simpl; [by apply elem_of_nil in Hq | | lia].
  apply list_elem_of_singleton in Hq, Ho. congruence.
Qed.

(** ** Deleting and editing again *)

Lemma filter_all {A : Type} (P : A -> Prop) `{!∀ x, Decision (P x)} (l : list A) :
  Forall P l -> filter P l = l.
Proof.
  induction 1 as [|x l Hx _ IH]; [done|].
  rewrite filter_cons_True by done. by rewrite IH.
Qed.

Lemma filter_twice {A : Type} (P : A -> Prop) `{!∀ x, Decision (P x)} (l : list A) :
  filter P (filter P l) = filter P l.
Proof. apply filter_all, Forall_filter_holds. Qed.

Lemma absent_id_all (nodeId : string) (ns : list Node) :
  nodeId ∉ map node_id ns -> Forall (fun n => node_id n ≠ nodeId) ns.
Proof.
  intros Habs. apply Forall_forall. intros n Hn Heq. apply Habs.
  apply list_elem_of_In, in_map_iff. exists n. split; [done|].
  by apply list_elem_of_In.
Qed.

Lemma no_edge_on_all (nodeId : string) (es : list Edge) :
  no_edge_on [nodeId] es -> Forall (not_incident nodeId) es.
Proof.
  unfold no_edge_on. intros H. eapply Forall_impl; [exact H|].
  intros e [Hs Ht].
  split; intros Heq; [apply Hs | apply Ht]; by apply list_elem_of_singleton.
Qed.

(** X15: deleting through a node's handle twice is deleting once, and
    deleting an id that no node has and no edge touches leaves the session
    as it is (the owner is still notified); for both delete handles. *)
Theorem delete_handle_again (st : Session) (nodeId : string) :
  (∀ c1 c2 : list Edge,
     (hydrated_onDelete c2 (hydrated_onDelete c1 st nodeId).1 nodeId).1
     = (hydrated_onDelete c1 st nodeId).1)
  ∧ (∀ (n1 n2 : list Node) (c1 c2 : list Edge),
       (dropped_onDelete n2 c2 (dropped_onDelete n1 c1 st nodeId).1 nodeId).1
       = (dropped_onDelete n1 c1 st nodeId).1)
  ∧ ((nodeId ∉ map node_id (nodes st)) -> no_edge_on [nodeId] (edges st) ->
     (∀ c : list Edge, (hydrated_onDelete c st nodeId).1 = st)
     ∧ (∀ (n : list Node) (c : list Edge), (dropped_onDelete n c st nodeId).1 = st)).
Proof.
  split; [|split].
  - intros c1 c2. unfold hydrated_onDelete. cbn [fst nodes edges connectFrom].
    by rewrite !filter_twice.
  - intros n1 n2 c1 c2. unfold dropped_onDelete. cbn [fst nodes edges connectFrom].
    by rewrite !filter_twice.
  - intros Habs Hedges.
    apply absent_id_all in Habs. apply no_edge_on_all in Hedges.
    destruct st as [ns es cf]. simpl in *.
    split; intros; simpl; by rewrite !filter_all.
Qed.

Lemma delete_handle_again_witness :
  ("zz" ∉ map node_id (nodes Sample.loaded_ab))
  ∧ no_edge_on ["zz"] (edges Sample.loaded_ab)
  ∧ (hydrated_onDelete [] Sample.loaded_ab "zz").1 = Sample.loaded_ab.
Proof.
  assert (Habs : "zz" ∉ map node_id (nodes Sample.loaded_ab)).
  { intros H. apply list_elem_of_In in H. vm_compute in H.
    destruct H as [H | [H | H]]; [discriminate H | discriminate H | exact H]. }
  assert (Hedges : no_edge_on ["zz"] (edges Sample.loaded_ab)).
  { repeat constructor; intros H; apply list_elem_of_singleton in H; discriminate H. }
  split; [exact Habs|]. split; [exact Hedges|].
  exact (proj1 (proj2 (proj2 (delete_handle_again Sample.loaded_ab "zz")) Habs Hedges) []).
Defined.

Lemma merge_config_twice (c1 c2 : gmap string Value) (n : Node) :
  merge_config c2 (merge_config c1 n) = merge_config (c2 ∪ c1) n.
Proof.
  unfold merge_config at 1 3. f_equal.
  - apply (f_equal Some).
    replace (JS.data_or_empty (merge_config c1 n))
      with (<["config" := VObj (c1 ∪ config_of n)]> (JS.data_or_empty n)) by done.
    rewrite insert_insert_eq. f_equal. f_equal.
    fold (config_of (merge_config c1 n)). rewrite config_of_merge_config.
    fold (config_of n). by rewrite (assoc_L (∪)).
Qed.

(** X16: two config edits of the same node in a row leave the session that
    one edit with the second config laid over the first leaves. *)
Theorem config_edits_compose (e1 e2 e : list Edge) (st : Session) (nodeId : string)
    (c1 c2 : gmap string Value) :
  (onUpdateConfig e2 (onUpdateConfig e1 st nodeId c1).1 nodeId c2).1
  = (onUpdateConfig e st nodeId (c2 ∪ c1)).1.
Proof.
  unfold onUpdateConfig. cbn [fst nodes edges connectFrom]. f_equal.
  rewrite map_map. apply map_ext. intros n.
  destruct (decide (node_id n = nodeId)) as [Hid|Hid].
  - rewrite !(bool_decide_true (node_id n = nodeId)) by done.
    rewrite ?bool_decide_true by done. apply merge_config_twice.
  - rewrite !(bool_decide_false (node_id n = nodeId)) by done.
    by rewrite ?bool_decide_false.
Qed.

(** ** Connect-mode clicks, bulk deletes and documents without arrays *)

(** X17: a click on a node notifies the owner only in connect mode with a
    non-empty cursor on another node.  The notified document then is the
    captured nodes and the captured edges followed by one edge from the
    cursor to the clicked node, never a self-loop, and the cursor is empty
    afterwards; in every case the click leaves the session's nodes alone. *)
Theorem click_connect_never_self_loop (mode : bool) (c_nodes : list Node)
    (c_edges : list Edge) (st : Session) (now : N) (node : Node) :
  let r := onNodeClick mode c_nodes c_edges st now node in
  nodes r.1 = nodes st
  ∧ ∀ w : Workflow, WorkflowChange w ∈ r.2 ->
      ∃ e : Edge,
        w = doc c_nodes (c_edges ++ [e])
        ∧ r.2 = [WorkflowChange w]
        ∧ source e ≠ target e
        ∧ source e ≠ ""
        ∧ connectFrom st = Some (source e)
        ∧ target e = node_id node
        ∧ mode = true
        ∧ connectFrom r.1 = None.
Proof.
  cbv zeta. unfold onNodeClick. destruct mode.
  - destruct (connectFrom st) as [from|] eqn:Hfrom; simpl.
    + destruct (String.eqb_spec from "") as [->|Hne]; simpl.
      { split; [done|]. intros w Hw. by apply elem_of_nil in Hw. }
      case_bool_decide as Hdiff; simpl.
      * split; [done|]. intros w Hw. apply list_elem_of_singleton in Hw.
        injection Hw as ->. eexists. repeat split; done.
      * split; [done|]. intros w Hw. by apply elem_of_nil in Hw.
    + split; [done|]. intros w Hw. by apply elem_of_nil in Hw.
  - split; [done|]. intros w Hw. apply list_elem_of_singleton in Hw. done.
Qed.

Lemma click_connect_never_self_loop_witness :
  let r := gesture_nodeClick SampleDrop.armed_a 2 Sample.b in
  ∃ w, WorkflowChange w ∈ r.2
       ∧ ∃ e, source e ≠ target e ∧ source e = "a" ∧ target e = "b"
              ∧ default [] (w_edges w) = [Sample.a_to_b; e].
Proof.
  cbv zeta. eexists.
  assert (Hin : WorkflowChange
                  (doc (nodes (session SampleDrop.armed_a))
                     (edges (session SampleDrop.armed_a)
                      ++ [click_edge Sample.a Sample.b 2]))
                ∈ (gesture_nodeClick SampleDrop.armed_a 2 Sample.b).2).
  { vm_compute. apply list_elem_of_here. }
  split; [exact Hin|].
  destruct (proj2 (click_connect_never_self_loop
                     (connectMode SampleDrop.armed_a)
                     (nodes (session SampleDrop.armed_a))
                     (edges (session SampleDrop.armed_a))
                     (session SampleDrop.armed_a) 2 Sample.b) _ Hin)
    as (e & _ & _ & Hloop & _).
  exists (click_edge Sample.a Sample.b 2).
  split; [discriminate|]. split; [reflexivity|]. split; reflexivity.
Defined.



(** X19: a document whose [nodes] and [edges] are not arrays is read as
    the empty graph: on an empty session the effect does nothing, on any
    other session it removes every node and every edge and keeps the
    connect cursor. *)
Theorem reconciler_reads_missing_arrays_as_empty (st : Session) :
  let w := {| w_nodes := None; w_edges := None |} in
  (nodes st = [] -> edges st = [] -> syncWorkflow st (Some w) = (st, []))
  ∧ (nodes st ≠ [] ∨ edges st ≠ [] ->
     syncWorkflow st (Some w)
     = ({| nodes := []; edges := []; connectFrom := connectFrom st |}, [])).
Proof.
  cbv zeta. split.
  - intros Hn He. apply syncWorkflow_in_sync; simpl; by rewrite ?Hn, ?He.
  - intros Hdiff. rewrite syncWorkflow_adopts; [done|]. simpl.
    destruct Hdiff as [H | H]; [left | right]; intros Heq; apply H;
      by eapply map_eq_nil.
Qed.

Lemma reconciler_reads_missing_arrays_as_empty_witness :
  (nodes Sample.loaded_ab ≠ [] ∨ edges Sample.loaded_ab ≠ [])
  ∧ syncWorkflow Sample.loaded_ab (Some {| w_nodes := None; w_edges := None |})
    = (empty_session, []).
Proof.
  assert (H : nodes Sample.loaded_ab ≠ [] ∨ edges Sample.loaded_ab ≠ []).
  { right. discriminate. }
  split; [exact H|].
  exact (proj2 (reconciler_reads_missing_arrays_as_empty Sample.loaded_ab) H).
Defined.

(** ** Mounting on a document *)

(** X20: a canvas mounted on a document whose nodes all have a type, as
    happens when the builder tab is shown again, holds that document: its
    edges are the document's and its nodes sanitize to the document's
    sanitized nodes; the cursor is empty and nothing is notified. *)
Theorem mount_adopts_document (mode : bool) (ns : list Node) (es : list Edge) :
  Forall (fun n => typed n = true) ns ->
  let r := gesture_sync (mount mode) (Some (doc ns es)) in
  edges (session r.1) = es
  ∧ sanitizeNodes (nodes (session r.1)) = sanitizeNodes ns
  ∧ map node_id (nodes (session r.1)) = map node_id ns
  ∧ connectFrom (session r.1) = None
  ∧ r.2 = [].
Proof.
  intros Htyped. cbv zeta. unfold gesture_sync, with_session, mount.
  cbn [fst snd session].
  destruct (ids_dec empty_session (doc ns es)) as [[Hn He] | Hdiff].
  - rewrite (syncWorkflow_in_sync _ _ Hn He). simpl in *.
    symmetry in Hn, He. apply map_eq_nil in Hn, He. by subst.
  - rewrite (syncWorkflow_adopts _ _ Hdiff). cbn [fst snd nodes edges connectFrom].
    cbn [doc w_nodes w_edges default id empty_session edges].
    repeat split; [|apply map_node_id_hydrate].
    unfold sanitizeNodes. rewrite map_map. apply map_ext_Forall.
    eapply Forall_impl; [exact Htyped|]. intros n Hn.
    unfold typed in Hn. destruct n as [i [t|] p d]; [|done]. simpl in Hn.
    unfold hydrate, sanitizeNode, JS.data_or_empty.
    cbn [node_id node_type position data default id type_or_custom].
    destruct (String.eqb t ""); [done|]. do 2 f_equal.
    apply (handles_overwrite (default ∅ d) VUndefined VUndefined).
Qed.

Lemma mount_adopts_document_witness :
  Forall (fun n => typed n = true) [Sample.a; Sample.b]
  ∧ sanitizeNodes (nodes (session (gesture_sync (mount false)
                                     (Some (doc [Sample.a; Sample.b]
                                              [Sample.a_to_b]))).1))
    = sanitizeNodes [Sample.a; Sample.b].
Proof.
  assert (H : Forall (fun n => typed n = true) [Sample.a; Sample.b]).
  { repeat constructor. }
  split; [exact H|].
  exact (proj1 (proj2 (mount_adopts_document false [Sample.a; Sample.b]
                         [Sample.a_to_b] H))).
Defined.

(** ** What [CustomNode] shows *)

Lemma JS_or_truthy (a b : Value) : JS.truthy b = true -> JS.truthy (JS.or a b) = true.
Proof. intros Hb. unfold JS.or. by destruct (JS.truthy a) eqn:Ha. Qed.

(** X21: the value of the expression in the box of an output node
    (line 89), as far as strings go.  When it is a string it is never the
    empty string.  For a freshly dropped output node it is the placeholder
    text, because the node's [formatted_response] is the empty string;
    after the owner laid a string response over an output node it is that
    response when the response is not empty, and the placeholder when it
    is. *)
Theorem output_text_value (d : gmap string Value) :
  let placeholder := "Connect components into this Output to view results." in
  (∀ s : string, CustomNode_outputText d = VStr s -> s ≠ "")
  ∧ (∀ (c_nodes : list Node) (c_edges : list Edge) (componentData label dc : Value),
       CustomNode_outputText
         (newNode_data c_nodes c_edges "output" componentData label dc)
       = VStr placeholder)
  ∧ (∀ (n : Node) (response : string),
       has_kind "output" n = true ->
       CustomNode_outputText
         (JS.data_or_empty (withResponse (JS.or (VStr response) (VStr "")) n))
       = VStr (if String.eqb response "" then placeholder else response)).
Proof.
  cbv zeta. split; [|split].
  - intros s Hs ->.
    assert (Ht : JS.truthy (CustomNode_outputText d) = true)
      by by apply JS_or_truthy.
    by rewrite Hs in Ht.
  - intros c_nodes c_edges componentData label dc. unfold CustomNode_outputText, JS.get.
    destruct (newNode_data_fixed c_nodes c_edges "output" componentData label dc)
      as (_ & _ & ->).
    done.
  - intros n response Hkind. unfold withResponse. rewrite Hkind.
    unfold CustomNode_outputText, JS.data_or_empty, JS.get.
    cbn [data default id]. rewrite lookup_insert_eq. cbn [default id opt_get].
    unfold JS.get. rewrite lookup_insert_eq. cbn [default id].
    unfold JS.or. cbn [JS.truthy].
    destruct (String.eqb response "") eqn:Hr; cbn [negb JS.truthy]; [done|].
    by rewrite Hr.
Qed.

Lemma output_text_value_witness :
  has_kind "output" (MkNode "o" (Some "custom") Sample.origin
                       (Some {["type" := VStr "output"]})) = true
  ∧ CustomNode_outputText
      (JS.data_or_empty
         (withResponse (JS.or (VStr "42") (VStr ""))
            (MkNode "o" (Some "custom") Sample.origin
               (Some {["type" := VStr "output"]}))))
    = VStr "42".
Proof.
  assert (H : has_kind "output" (MkNode "o" (Some "custom") Sample.origin
                                   (Some {["type" := VStr "output"]})) = true)
    by reflexivity.
  split; [exact H|].
  exact (proj2 (proj2 (output_text_value ∅)) _ "42" H).
Defined.

Lemma CustomNode_debugTag_append (type rest : string) :
  CustomNode_debugTag (type +:+ String "_" rest) = CustomNode_debugTag type.
Proof.
  induction type as [|c type IH]; simpl; [done|].
  destruct (Ascii.eqb c "_"); [done|]. by rewrite IH.
Qed.

Lemma CustomNode_debugTag_whole (s : string) :
  occurs "_" s = false -> CustomNode_debugTag s = s.
Proof.
  induction s as [|c s IH]; [done|]. cbn [occurs CustomNode_debugTag].
  destruct (Ascii.eqb_spec c "_") as [->|Hne].
  - by rewrite Ascii.eqb_refl.
  - assert (Hc : Ascii.eqb "_" c = false) by (apply Ascii.eqb_neq; congruence).
    rewrite Hc. cbn [orb]. intros Hs. by rewrite IH.
Qed.

(** X22: the tag shown in the corner of a dropped node is the part of
    its component type before the first underscore: the whole type when
    the type has no underscore, and never anything of the timestamp. *)
Theorem debug_tag_of_dropped (componentType : string) (now : N) :
  CustomNode_debugTag (newId componentType now) = CustomNode_debugTag componentType
  ∧ (occurs "_" componentType = false ->
     CustomNode_debugTag (newId componentType now) = componentType).
Proof.
  unfold newId.
  assert (H : CustomNode_debugTag (componentType +:+ "_" +:+ pretty now)
              = CustomNode_debugTag componentType)
    by apply CustomNode_debugTag_append.
  split; [exact H|]. intros Hno. rewrite H. by apply CustomNode_debugTag_whole.
Qed.

Lemma debug_tag_of_dropped_witness :
  occurs "_" "output" = false
  ∧ CustomNode_debugTag (newId "output" 7) = "output"
  ∧ CustomNode_debugTag (newId "user_query" 7) = "user".
Proof.
  assert (H : occurs "_" "output" = false) by reflexivity.
  split; [exact H|]. split.
  - exact (proj2 (debug_tag_of_dropped "output" 7) H).
  - rewrite (proj1 (debug_tag_of_dropped "user_query" 7)). reflexivity.
Defined.
